(** * Ayucore-AI: the two setup-diagnostic scripts

    A shallow embedding of [check_pinecone.py] and [test_setup.py].

    Both scripts are straight-line module bodies: [print] calls, calls into
    third-party packages, [try]/[except Exception] blocks and [exit(1)].
    The embedding keeps that shape.  A script is a computation in a small
    monad that threads the process store (the environment [os.environ] and
    the module globals that outlive the block assigning them), collects the
    trace of observable events in program order, and ends in one of three
    ways: it returns, it raises an [Exception], or it raises [SystemExit].

    The third-party packages and the repository's own [src.helper] module
    (not part of the two files) are the fields of a record [World]: what each
    call returns or raises is a parameter of every definition and theorem. *)

From Stdlib Require Import Ascii String QArith.
From stdpp Require Import gmap strings list fin_maps pretty sorting.

Local Open Scope string_scope.
Local Open Scope Z_scope.

(** ** Python values and the outside world *)

(** What a call into a package does: it returns a value, or it raises an
    exception.  Only the text [str(e)] of the exception is ever used by the
    scripts ([{e}] in an f-string), so an exception is its text.  Exceptions
    raised by the packages are taken to derive from [Exception]. *)
Inductive pyresult (A : Type) : Type :=
  | Returns (a : A)
  | Raises (e : string).
Arguments Returns {A} a.
Arguments Raises {A} e.

(** The objects handed back by the packages.  The scripts look at the length
    of the document lists, at [idx.name] and at [test_response.content]. *)
Record Document := { page_content : string }.
Record Embeddings := { model_name : string }.
Record PineconeClient := { api_key : option string }.
Record IndexModel := { name : string }.
Record LLM := { model : string; temperature : Q }.
Record AIMessage := { content : string }.

Record World := {
  (** [import m] / [from m import ...] for the module named [m] *)
  import_module : string → pyresult unit;
  (** [load_dotenv()]: reads [.env] and may add variables to [os.environ] *)
  load_dotenv : gmap string string → pyresult (gmap string string);
  (** [src.helper.load_pdf_file(data=...)] *)
  load_pdf_file : string → pyresult (list Document);
  (** [src.helper.text_split(extracted_data)] *)
  text_split : list Document → pyresult (list Document);
  (** [src.helper.download_hugging_face_embeddings()] *)
  download_hugging_face_embeddings : pyresult Embeddings;
  (** [Pinecone(api_key=...)] *)
  Pinecone : option string → pyresult PineconeClient;
  (** [pc.list_indexes()] *)
  list_indexes : PineconeClient → pyresult (list IndexModel);
  (** [ChatGoogleGenerativeAI(model=..., temperature=...)]; the client takes
      its key from the process environment *)
  ChatGoogleGenerativeAI : gmap string string → string → Q → pyresult LLM;
  (** [llm.invoke(prompt)] *)
  invoke : LLM → string → pyresult AIMessage;
  (** the builtin [repr] on [str], used when a list of names is formatted *)
  repr : string → string
}.

(** ** Store, events, and the script monad *)

(** Module globals read in a later [try] block than the one assigning them.
    [None] is an unbound name; a bound key holds what [os.environ.get]
    returned, a [str] or Python's [None]. *)
Record Store := {
  environ : gmap string string;
  PINECONE_API_KEY : option (option string);
  GOOGLE_API_KEY : option (option string);
  extracted_data : option (list Document)
}.

Definition init_store (env : gmap string string) : Store :=
  {| environ := env; PINECONE_API_KEY := None; GOOGLE_API_KEY := None;
     extracted_data := None |}.

(** The calls a script makes outside itself, each with its arguments. *)
Inductive Action : Type :=
  | Import (m : string)
  | LoadDotenv
  | EnvironGet (k : string)
  | EnvironSet (k v : string)
  | LoadPdfFile (data : string)
  | TextSplit (docs : list Document)
  | DownloadEmbeddings
  | PineconeInit (key : option string)
  | ListIndexes
  | ChatInit (model : string)
  | Invoke (prompt : string).

Inductive Event : Type :=
  | Print (line : string)
  | Act (a : Action).

(** How a computation ends.  [Exc] is an exception deriving from
    [Exception]; [Exit] is the [SystemExit] raised by [exit(code)], which
    [except Exception] does not catch. *)
Inductive Outcome (A : Type) : Type :=
  | Ret (a : A)
  | Exc (e : string)
  | Exit (code : Z).
Arguments Ret {A} a.
Arguments Exc {A} e.
Arguments Exit {A} code.

Record Res (A : Type) := mkRes {
  outcome : Outcome A;
  store : Store;
  trace : list Event
}.
Arguments mkRes {A} _ _ _.
Arguments outcome {A} _.
Arguments store {A} _.
Arguments trace {A} _.

Definition M (A : Type) : Type := Store → Res A.

#[global] Instance M_ret : MRet M := λ A a s, mkRes (Ret a) s [].

(** The events [t] happened before the run [r]. *)
Definition prepend {A : Type} (t : list Event) (r : Res A) : Res A :=
  match r with
  | mkRes o s t' => mkRes o s (t ++ t')
  end.

(** Sequencing: the second statement runs only when the first returns. *)
#[global] Instance M_bind : MBind M := λ A B k m s,
  match m s with
  | mkRes (Ret a) s' t => prepend t (k a s')
  | mkRes (Exc e) s' t => mkRes (Exc e) s' t
  | mkRes (Exit c) s' t => mkRes (Exit c) s' t
  end.

(** [print(line)] *)
Definition print (line : string) : M unit :=
  λ s, mkRes (Ret ()) s [Print line].

(** [exit(code)] *)
Definition exit {A : Type} (code : Z) : M A :=
  λ s, mkRes (Exit code) s [].

(** A call into a package: the call is recorded, then it returns or raises. *)
Definition call {A : Type} (a : Action) (r : pyresult A) : M A :=
  λ s, mkRes (match r with Returns x => Ret x | Raises e => Exc e end)
             s [Act a].

(** [try: body except Exception as e: handler(e)] *)
Definition try_except {A : Type} (body : M A) (handler : string → M A) : M A :=
  λ s, match body s with
       | mkRes (Exc e) s' t => prepend t (handler e s')
       | r => r
       end.

(** [load_dotenv()] updates [os.environ] in place. *)
Definition do_load_dotenv (w : World) : M unit :=
  λ s, match load_dotenv w (environ s) with
       | Returns env' =>
           mkRes (Ret ())
                 {| environ := env'; PINECONE_API_KEY := PINECONE_API_KEY s;
                    GOOGLE_API_KEY := GOOGLE_API_KEY s;
                    extracted_data := extracted_data s |}
                 [Act LoadDotenv]
       | Raises e => mkRes (Exc e) s [Act LoadDotenv]
       end.

(** [os.environ.get(k)] *)
Definition environ_get (k : string) : M (option string) :=
  λ s, mkRes (Ret (environ s !! k)) s [Act (EnvironGet k)].

(** [os.environ[k] = v]; assigning Python's [None] is a [TypeError]. *)
Definition environ_set (k : string) (v : option string) : M unit :=
  λ s, match v with
       | Some v =>
           mkRes (Ret ())
                 {| environ := <[k := v]> (environ s);
                    PINECONE_API_KEY := PINECONE_API_KEY s;
                    GOOGLE_API_KEY := GOOGLE_API_KEY s;
                    extracted_data := extracted_data s |}
                 [Act (EnvironSet k v)]
       | None => mkRes (Exc "str expected, not NoneType") s []
       end.

(** Assignment to, and use of, the module globals kept in the store.  A use
    of an unbound name is a [NameError]. *)
Definition assign_PINECONE_API_KEY (v : option string) : M unit :=
  λ s, mkRes (Ret ())
             {| environ := environ s; PINECONE_API_KEY := Some v;
                GOOGLE_API_KEY := GOOGLE_API_KEY s;
                extracted_data := extracted_data s |} [].

Definition assign_GOOGLE_API_KEY (v : option string) : M unit :=
  λ s, mkRes (Ret ())
             {| environ := environ s; PINECONE_API_KEY := PINECONE_API_KEY s;
                GOOGLE_API_KEY := Some v;
                extracted_data := extracted_data s |} [].

Definition assign_extracted_data (d : list Document) : M unit :=
  λ s, mkRes (Ret ())
             {| environ := environ s; PINECONE_API_KEY := PINECONE_API_KEY s;
                GOOGLE_API_KEY := GOOGLE_API_KEY s;
                extracted_data := Some d |} [].

Definition name_error (x : string) : string :=
  "name '" +:+ x +:+ "' is not defined".

Definition use {A : Type} (x : string) (field : Store → option A) : M A :=
  λ s, match field s with
       | Some v => mkRes (Ret v) s []
       | None => mkRes (Exc (name_error x)) s []
       end.

(** Truth value of what [os.environ.get] returned: [None] and the empty
    string are false. *)
Definition truthy (v : option string) : bool :=
  match v with
  | Some s => negb (String.eqb s "")
  | None => false
  end.

(** [str] of a list of strings, as an f-string formats it. *)
Definition str_list (w : World) (l : list string) : string :=
  "[" +:+ String.concat ", " (map (repr w) l) +:+ "]".

(** A [str] is kept as the bytes of its UTF-8 encoding: a character is a
    lead byte followed by its continuation bytes, the bytes [10xxxxxx]. *)
Definition is_continuation (c : ascii) : bool :=
  match c with
  | Ascii _ _ _ _ _ _ b6 b7 => b7 && negb b6
  end.

(** [s[:n]], the first [n] characters of [s] *)
Fixpoint str_take (n : nat) (s : string) : string :=
  match s with
  | EmptyString => EmptyString
  | String c s' =>
      if is_continuation c then String c (str_take n s')
      else match n with
           | O => EmptyString
           | S n' => String c (str_take n' s')
           end
  end.

(** [len(s)], the number of characters of [s] *)
Fixpoint str_len (s : string) : nat :=
  match s with
  | EmptyString => O
  | String c s' => if is_continuation c then str_len s' else S (str_len s')
  end.

(** [c * n] for a one-character string *)
Fixpoint str_mul (c : string) (n : nat) : string :=
  match n with
  | O => ""
  | S n' => c +:+ str_mul c n'
  end.

(** The process exit status: 0 when the module body runs to its end, the
    argument of [exit], and 1 for an uncaught exception. *)
Definition exit_status {A : Type} (o : Outcome A) : Z :=
  match o with
  | Ret _ => 0
  | Exc _ => 1
  | Exit c => c
  end.

(** Running a script as a fresh process with environment [env]. *)
Definition run_script (script : M unit) (env : gmap string string) : Res unit :=
  script (init_store env).

(** The lines written to standard output, and the package calls made. *)
Fixpoint lines (t : list Event) : list string :=
  match t with
  | [] => []
  | Print l :: t' => l :: lines t'
  | Act _ :: t' => lines t'
  end.

Fixpoint actions (t : list Event) : list Action :=
  match t with
  | [] => []
  | Print _ :: t' => actions t'
  | Act a :: t' => a :: actions t'
  end.

(** ** check_pinecone.py *)

Definition check_pinecone (w : World) : M unit :=
  print "🔍 Checking Pinecone Index...";;
  try_except
    (call (Import "dotenv") (import_module w "dotenv");;
     call (Import "pinecone") (import_module w "pinecone");;
     call (Import "os") (import_module w "os");;
     do_load_dotenv w;;
     key ← environ_get "PINECONE_API_KEY";
     (if negb (truthy key)
      then print "❌ PINECONE_API_KEY not found in .env file";; exit 1
      else mret ());;
     pc ← call (PineconeInit key) (Pinecone w key);
     indexes ← call ListIndexes (list_indexes w pc);
     let index_names := map name indexes in
     print ("📋 Available indexes: " +:+ str_list w index_names);;
     if bool_decide ("medicalbot" ∈ index_names)
     then print "✅ 'medicalbot' index exists!";;
          print "🎉 Your Pinecone setup is ready!"
     else print "⚠️  'medicalbot' index not found.";;
          print "📝 Run: python store_index.py to create it")
    (λ e, print ("❌ Error: " +:+ e)).

(** ** test_setup.py *)

(** The environment as a package sees it when it is called. *)
Definition current_environ : M (gmap string string) :=
  λ s, mkRes (Ret (environ s)) s [].

(** Test 1: Import all required modules *)
Definition test_1 (w : World) : M unit :=
  try_except
    (print "1. Testing imports...";;
     call (Import "src.helper") (import_module w "src.helper");;
     call (Import "pinecone") (import_module w "pinecone");;
     call (Import "langchain_google_genai")
          (import_module w "langchain_google_genai");;
     call (Import "dotenv") (import_module w "dotenv");;
     call (Import "os") (import_module w "os");;
     print "   ✅ All imports successful!")
    (λ e, print ("   ❌ Import error: " +:+ e);; exit 1).

(** Test 2: Load environment variables *)
Definition test_2 (w : World) : M unit :=
  try_except
    (print "2. Testing environment variables...";;
     do_load_dotenv w;;
     pk ← environ_get "PINECONE_API_KEY";
     assign_PINECONE_API_KEY pk;;
     gk ← environ_get "GOOGLE_API_KEY";
     assign_GOOGLE_API_KEY gk;;
     if truthy pk && truthy gk
     then print "   ✅ API keys loaded successfully!"
     else print "   ❌ API keys not found in .env file";; exit 1)
    (λ e, print ("   ❌ Environment error: " +:+ e);; exit 1).

(** Test 3: Test PDF loading *)
Definition test_3 (w : World) : M unit :=
  try_except
    (print "3. Testing PDF loading...";;
     d ← call (LoadPdfFile "Data/") (load_pdf_file w "Data/");
     assign_extracted_data d;;
     print ("   ✅ Loaded " +:+ pretty (length d) +:+ " PDF pages!"))
    (λ e, print ("   ❌ PDF loading error: " +:+ e);; exit 1).

(** Test 4: Test text chunking *)
Definition test_4 (w : World) : M unit :=
  try_except
    (print "4. Testing text chunking...";;
     d ← use "extracted_data" extracted_data;
     text_chunks ← call (TextSplit d) (text_split w d);
     print ("   ✅ Created " +:+ pretty (length text_chunks)
            +:+ " text chunks!"))
    (λ e, print ("   ❌ Text chunking error: " +:+ e);; exit 1).

(** Test 5: Test embeddings *)
Definition test_5 (w : World) : M unit :=
  try_except
    (print "5. Testing embeddings...";;
     call DownloadEmbeddings (download_hugging_face_embeddings w);;
     print "   ✅ Embeddings model loaded successfully!")
    (λ e, print ("   ❌ Embeddings error: " +:+ e);; exit 1).

(** Test 6: Test Pinecone connection *)
Definition test_6 (w : World) : M unit :=
  try_except
    (print "6. Testing Pinecone connection...";;
     key ← use "PINECONE_API_KEY" PINECONE_API_KEY;
     pc ← call (PineconeInit key) (Pinecone w key);
     indexes ← call ListIndexes (list_indexes w pc);
     print ("   ✅ Pinecone connected! Available indexes: "
            +:+ str_list w (map name indexes)))
    (λ e, print ("   ❌ Pinecone connection error: " +:+ e);; exit 1).

(** Test 7: Test Gemini connection *)
Definition test_7 (w : World) : M unit :=
  try_except
    (print "7. Testing Gemini AI connection...";;
     gk ← use "GOOGLE_API_KEY" GOOGLE_API_KEY;
     environ_set "GOOGLE_API_KEY" gk;;
     env ← current_environ;
     llm ← call (ChatInit "gemini-1.5-flash")
                (ChatGoogleGenerativeAI w env "gemini-1.5-flash" 0.4%Q);
     test_response ← call (Invoke "Hello, this is a test.")
                          (invoke w llm "Hello, this is a test.");
     print "   ✅ Gemini AI model initialized and tested successfully!";;
     print ("   Test response: "
            +:+ str_take 50 (content test_response) +:+ "..."))
    (λ e,
     print ("   ❌ Gemini AI error: " +:+ e);;
     print "   💡 Tip: Check if your Google API key is valid and has Gemini access enabled";;
     exit 1).

Definition test_setup (w : World) : M unit :=
  print "🔍 Testing Medical Chatbot Setup...";;
  print (str_mul "=" 50);;
  test_1 w;;
  test_2 w;;
  test_3 w;;
  test_4 w;;
  test_5 w;;
  test_6 w;;
  test_7 w;;
  print (str_mul "=" 50);;
  print "🎉 ALL TESTS PASSED! Your medical chatbot is ready!";;
  print "📋 Next steps:";;
  print "   1. Run: python store_index.py (to create vector database)";;
  print "   2. Run: python app.py (to start the web application)";;
  print "   3. Open: http://localhost:8080 (to use the chatbot)".

(** ** The checklist view of test_setup.py *)

(** The seven [try] blocks, in source order. *)
Definition checks (w : World) : list (M unit) :=
  [test_1 w; test_2 w; test_3 w; test_4 w; test_5 w; test_6 w; test_7 w].

(** Running blocks one after the other, as consecutive statements run. *)
Fixpoint run_checks (cs : list (M unit)) : M unit :=
  match cs with
  | [] => mret ()
  | c :: cs' => c;; run_checks cs'
  end.

(** The 1-based number of the first block, counting from [k], that does not
    run to its end; [None] when every block does. *)
Fixpoint first_failure (cs : list (M unit)) (k : nat) (s : Store)
  : option nat :=
  match cs with
  | [] => None
  | c :: cs' =>
      match outcome (c s) with
      | Ret _ => first_failure cs' (S k) (store (c s))
      | _ => Some k
      end
  end.

Definition failing_check (w : World) (env : gmap string string) : option nat :=
  first_failure (checks w) 1 (init_store env).

(** The block of [test_setup.py] an action is written in. *)
Definition check_of (a : Action) : nat :=
  match a with
  | Import _ => 1
  | LoadDotenv | EnvironGet _ => 2
  | LoadPdfFile _ => 3
  | TextSplit _ => 4
  | DownloadEmbeddings => 5
  | PineconeInit _ | ListIndexes => 6
  | EnvironSet _ _ | ChatInit _ | Invoke _ => 7
  end%nat.

(** ** Reading the output *)

(** Output lines are told apart by their visible markers: a begin line is
    an unindented [<digit>. Testing ...], a success line starts, after its
    indentation, with the check mark, a failure line with the cross. *)
Inductive Kind : Type :=
  | Begin (k : nat)
  | Success
  | Failure
  | Plain.

#[global] Instance Kind_eq_dec : EqDecision Kind.
Proof. solve_decision. Defined.

Fixpoint lstrip (l : string) : string :=
  match l with
  | String " "%char l' => lstrip l'
  | _ => l
  end.

Definition digit_of (c : ascii) : option nat :=
  let n := nat_of_ascii c in
  if bool_decide (48 ≤ n ≤ 57)%nat then Some (n - 48)%nat else None.

Definition classify (l : string) : Kind :=
  if String.prefix "✅" (lstrip l) then Success
  else if String.prefix "❌" (lstrip l) then Failure
  else match l with
       | String d rest =>
           match digit_of d with
           | Some k => if String.prefix ". Testing " rest then Begin k
                       else Plain
           | None => Plain
           end
       | EmptyString => Plain
       end.

Definition is_begin (l : string) : bool :=
  match classify l with Begin _ => true | _ => false end.
Definition is_success (l : string) : bool :=
  bool_decide (classify l = Success).
Definition is_failure (l : string) : bool :=
  bool_decide (classify l = Failure).

Definition count (p : string → bool) (l : list string) : nat :=
  length (List.filter p l).

(** One concrete world for the examples: every package call succeeds, the
    environment is left as it is, one index named [medicalbot] exists. *)
Definition world_ok : World := {|
  import_module := λ _, Returns ();
  load_dotenv := λ env, Returns env;
  load_pdf_file := λ _, Returns [ {| page_content := "page one" |};
                                  {| page_content := "page two" |} ];
  text_split := λ d, Returns (d ++ d)%list;
  download_hugging_face_embeddings :=
    Returns {| model_name := "sentence-transformers/all-MiniLM-L6-v2" |};
  Pinecone := λ k, Returns {| api_key := k |};
  list_indexes := λ _, Returns [ {| name := "medicalbot" |} ];
  ChatGoogleGenerativeAI := λ _ m t, Returns {| model := m; temperature := t |};
  invoke := λ _ _, Returns {| content := "Hello! How can I help you today?" |};
  repr := λ s, "'" +:+ s +:+ "'"
|}.

Definition env_ok : gmap string string :=
  <["PINECONE_API_KEY" := "pc-key"]> (<["GOOGLE_API_KEY" := "g-key"]> ∅).

(** The kinds of the lines of a trace, in order. *)
Definition kinds (t : list Event) : list Kind := map classify (lines t).

(** What one block leaves on standard output: its begin line, then the
    success or the failure line; the seventh block adds one more line (the
    response preview, or the tip). *)
Definition more_lines (k : nat) : list Kind :=
  if bool_decide (k = 7%nat) then [Plain] else [].
Definition passed_kinds (k : nat) : list Kind :=
  Begin k :: Success :: more_lines k.
Definition failed_kinds (k : nat) : list Kind :=
  Begin k :: Failure :: more_lines k.

(** A block numbered [k] either runs to its end or exits with status 1, and
    every package call in it is one written in block [k]. *)
Definition check_summary (k : nat) (r : Res unit) : Prop :=
  Forall (λ a, check_of a = k) (actions (trace r)) ∧
  ((outcome r = Ret () ∧ kinds (trace r) = passed_kinds k) ∨
   (outcome r = Exit 1 ∧ kinds (trace r) = failed_kinds k)).

(** The traces of the blocks that ran, one per block, in order. *)
Fixpoint traces_of (cs : list (M unit)) (s : Store) : list (list Event) :=
  match cs with
  | [] => []
  | c :: cs' =>
      trace (c s) ::
      match outcome (c s) with
      | Ret _ => traces_of cs' (store (c s))
      | _ => []
      end
  end.

(** A block's trace cut into the line before its first call, the calls, and
    the lines after its last call. *)
Fixpoint leading_actions (t : list Event) : list Action * list Event :=
  match t with
  | Act a :: t' => let '(acts, rest) := leading_actions t' in (a :: acts, rest)
  | _ => ([], t)
  end.

Fixpoint all_lines (t : list Event) : option (list string) :=
  match t with
  | [] => Some []
  | Print l :: t' => match all_lines t' with
                     | Some ls => Some (l :: ls)
                     | None => None
                     end
  | Act _ :: _ => None
  end.

Definition split_check (t : list Event)
  : option (string * list Action * list string) :=
  match t with
  | Print b :: t' =>
      let '(acts, rest) := leading_actions t' in
      match all_lines rest with
      | Some posts => Some (b, acts, posts)
      | None => None
      end
  | _ => None
  end.

(** The statements of [test_setup.py] after the seventh block. *)
Definition next_steps : M unit :=
  print (str_mul "=" 50);;
  print "🎉 ALL TESTS PASSED! Your medical chatbot is ready!";;
  print "📋 Next steps:";;
  print "   1. Run: python store_index.py (to create vector database)";;
  print "   2. Run: python app.py (to start the web application)";;
  print "   3. Open: http://localhost:8080 (to use the chatbot)".

(** Blocks followed by the rest of the module body. *)
Fixpoint checks_then (cs : list (M unit)) (rest : M unit) : M unit :=
  match cs with
  | [] => rest
  | c :: cs' => c;; checks_then cs' rest
  end.

(** The numbers of begin, success and failure lines on standard output. *)
Definition begin_lines (t : list Event) : nat := count is_begin (lines t).
Definition success_lines (t : list Event) : nat := count is_success (lines t).
Definition failure_lines (t : list Event) : nat := count is_failure (lines t).

Definition kind_is_begin (k : Kind) : bool :=
  match k with Begin _ => true | _ => false end.

(** Worlds in which one package call raises. *)
Definition world_no_pdf : World := {|
  import_module := import_module world_ok;
  load_dotenv := load_dotenv world_ok;
  load_pdf_file := λ _, Raises "Directory not found: 'Data/'";
  text_split := text_split world_ok;
  download_hugging_face_embeddings := download_hugging_face_embeddings world_ok;
  Pinecone := Pinecone world_ok;
  list_indexes := list_indexes world_ok;
  ChatGoogleGenerativeAI := ChatGoogleGenerativeAI world_ok;
  invoke := invoke world_ok;
  repr := repr world_ok
|}.

Definition world_gemini_down : World := {|
  import_module := import_module world_ok;
  load_dotenv := load_dotenv world_ok;
  load_pdf_file := load_pdf_file world_ok;
  text_split := text_split world_ok;
  download_hugging_face_embeddings := download_hugging_face_embeddings world_ok;
  Pinecone := Pinecone world_ok;
  list_indexes := list_indexes world_ok;
  ChatGoogleGenerativeAI := ChatGoogleGenerativeAI world_ok;
  invoke := λ _ _, Raises "API key not valid";
  repr := repr world_ok
|}.

(** The wording of the failure-report property: the last line on standard
    output is a failure line. *)
Definition failure_report_last (t : list Event) : bool :=
  match last (lines t) with
  | Some l => is_failure l
  | None => false
  end.

(** The failed-run property as worded: when block [k] is the first to fail,
    there are [k] begin lines, [k - 1] success lines, one failure line, and
    the failure line is the last line. *)
Definition failed_run_as_worded
  (w : World) (env : gmap string string) (k : nat) : Prop :=
  failing_check w env = Some k →
  let t := trace (run_script (test_setup w) env) in
  begin_lines t = k ∧ success_lines t = (k - 1)%nat ∧ failure_lines t = 1%nat ∧
  failure_report_last t = true.

(** The closing lines of [test_setup.py]: the separator, the banner and the
    next-steps guidance. *)
Definition closing_lines : list string :=
  [ str_mul "=" 50;
    "🎉 ALL TESTS PASSED! Your medical chatbot is ready!";
    "📋 Next steps:";
    "   1. Run: python store_index.py (to create vector database)";
    "   2. Run: python app.py (to start the web application)";
    "   3. Open: http://localhost:8080 (to use the chatbot)" ].

(** The environment after [load_dotenv()] has run on [env]. *)
Definition dotenv_environ (w : World) (env : gmap string string)
  : gmap string string :=
  match load_dotenv w env with
  | Returns env' => env'
  | Raises _ => env
  end.

(** A run of [check_pinecone.py] in which [list_indexes] is reached and
    returns [idxs]: the imports and [load_dotenv] succeed, the key is
    present, and the client is constructed. *)
Definition lists_indexes
  (w : World) (env : gmap string string) (idxs : list IndexModel) : Prop :=
  import_module w "dotenv" = Returns () ∧
  import_module w "pinecone" = Returns () ∧
  import_module w "os" = Returns () ∧
  ∃ env' pc,
    load_dotenv w env = Returns env' ∧
    truthy (env' !! "PINECONE_API_KEY") = true ∧
    Pinecone w (env' !! "PINECONE_API_KEY") = Returns pc ∧
    list_indexes w pc = Returns idxs.

(** A world whose vector service has no [medicalbot] index, and one whose
    [list_indexes] call raises. *)
Definition world_no_index : World := {|
  import_module := import_module world_ok;
  load_dotenv := load_dotenv world_ok;
  load_pdf_file := load_pdf_file world_ok;
  text_split := text_split world_ok;
  download_hugging_face_embeddings := download_hugging_face_embeddings world_ok;
  Pinecone := Pinecone world_ok;
  list_indexes := λ _, Returns [ {| name := "quickstart" |} ];
  ChatGoogleGenerativeAI := ChatGoogleGenerativeAI world_ok;
  invoke := invoke world_ok;
  repr := repr world_ok
|}.

Definition world_list_error : World := {|
  import_module := import_module world_ok;
  load_dotenv := load_dotenv world_ok;
  load_pdf_file := load_pdf_file world_ok;
  text_split := text_split world_ok;
  download_hugging_face_embeddings := download_hugging_face_embeddings world_ok;
  Pinecone := Pinecone world_ok;
  list_indexes := λ _, Raises "connection refused";
  ChatGoogleGenerativeAI := ChatGoogleGenerativeAI world_ok;
  invoke := invoke world_ok;
  repr := repr world_ok
|}.

(** The modules each script imports, in source order. *)
Definition test_setup_modules : list string :=
  ["src.helper"; "pinecone"; "langchain_google_genai"; "dotenv"; "os"].
Definition check_pinecone_modules : list string :=
  ["dotenv"; "pinecone"; "os"].

Definition imports_succeed (w : World) (ms : list string) : Prop :=
  Forall (λ m, import_module w m = Returns ()) ms.

(** Environments with a key missing, and with a key set to the empty
    string. *)
Definition env_no_google : gmap string string :=
  <["PINECONE_API_KEY" := "pc-key"]> ∅.
Definition env_no_pinecone : gmap string string :=
  <["GOOGLE_API_KEY" := "g-key"]> ∅.
Definition env_empty_pinecone : gmap string string :=
  <["PINECONE_API_KEY" := ""]> (<["GOOGLE_API_KEY" := "g-key"]> ∅).

(** The traces of the blocks of [test_setup.py] that ran in a fresh
    process. *)
Definition block_traces (w : World) (env : gmap string string)
  : list (list Event) :=
  traces_of (checks w) (init_store env).

(** The one-line-before, one-line-after property as worded: the block
    prints one line, makes its calls, and prints exactly one more line. *)
Definition one_line_before_and_after (t : list Event) : bool :=
  match split_check t with
  | Some (_, _, [_]) => true
  | _ => false
  end.

Definition one_line_each_as_worded
  (w : World) (env : gmap string string) : Prop :=
  Forall (λ t, one_line_before_and_after t = true) (block_traces w env).

(** The shape of the trace of block [k]: its begin line, its calls, then
    the success or failure line, and for block 7 one more line. *)
Definition block_shape (k : nat) (t : list Event) : Prop :=
  ∃ b acts v extra,
    split_check t = Some (b, acts, v :: extra) ∧
    classify b = Begin k ∧
    (classify v = Success ∨ classify v = Failure) ∧
    length extra = (if bool_decide (k = 7%nat) then 1 else 0)%nat.

(** The assignments to [os.environ] that a script itself performs. *)
Definition env_write (a : Action) : option (string * string) :=
  match a with
  | EnvironSet k v => Some (k, v)
  | _ => None
  end.

Definition env_writes (t : list Event) : list (string * string) :=
  omap env_write (actions t).

(** The frame property as worded: no block writes to the process
    environment. *)
Definition no_environ_write_as_worded
  (w : World) (env : gmap string string) : Prop :=
  env_writes (trace (run_script (test_setup w) env)) = [].

(** What holds of the store when block [k] of [test_setup.py] starts, in a
    process started with environment [env]: up to block 2 the environment
    is [env]; from block 3 on it is what [load_dotenv] left, and the global
    [GOOGLE_API_KEY] holds what the environment holds under that name. *)
Definition block_pre
  (w : World) (env : gmap string string) (k : nat) (s : Store) : Prop :=
  match k with
  | 0 | 1 | 2 => environ s = env
  | _ => environ s = dotenv_environ w env ∧
         GOOGLE_API_KEY s = Some (environ s !! "GOOGLE_API_KEY")
  end%nat.

(** The environment is the initial one or the one [load_dotenv] left. *)
Definition environ_kept
  (w : World) (env : gmap string string) (s : Store) : Prop :=
  environ s = env ∨ environ s = dotenv_environ w env.

(** The script's own writes: none, or the single assignment of
    [GOOGLE_API_KEY], with the value the environment already holds. *)
Definition writes_kept
  (w : World) (env : gmap string string) (t : list Event) : Prop :=
  env_writes t = [] ∨
  ∃ v, env_writes t = [("GOOGLE_API_KEY", v)] ∧
       dotenv_environ w env !! "GOOGLE_API_KEY" = Some v.

Definition frame_spec
  (w : World) (env : gmap string string) (k : nat) (c : M unit) : Prop :=
  ∀ s, block_pre w env k s →
       let r := c s in
       (outcome r = Ret () → block_pre w env (S k) (store r)) ∧
       environ_kept w env (store r) ∧
       writes_kept w env (trace r) ∧
       (k ≠ 7%nat → env_writes (trace r) = []).

(** An exception text raised by one of the package calls of
    [check_pinecone.py]: an import, [load_dotenv], the client constructor on
    the key the environment holds, or [list_indexes] on the client
    constructed. *)
Definition check_pinecone_raised
  (w : World) (env : gmap string string) (e : string) : Prop :=
  (∃ m, m ∈ check_pinecone_modules ∧ import_module w m = Raises e) ∨
  load_dotenv w env = Raises e ∨
  Pinecone w (dotenv_environ w env !! "PINECONE_API_KEY") = Raises e ∨
  ∃ pc, Pinecone w (dotenv_environ w env !! "PINECONE_API_KEY") = Returns pc ∧
        list_indexes w pc = Raises e.

(** The results of the blocks that ran, one per block, in order. *)
Fixpoint runs_of (cs : list (M unit)) (s : Store) : list (Res unit) :=
  match cs with
  | [] => []
  | c :: cs' =>
      c s ::
      match outcome (c s) with
      | Ret _ => runs_of cs' (store (c s))
      | _ => []
      end
  end.

(** The text each [except] handler of [test_setup.py] puts before the
    exception, by block. *)
Definition failure_prefix (k : nat) : string :=
  match k with
  | 1 => "   ❌ Import error: "
  | 2 => "   ❌ Environment error: "
  | 3 => "   ❌ PDF loading error: "
  | 4 => "   ❌ Text chunking error: "
  | 5 => "   ❌ Embeddings error: "
  | 6 => "   ❌ Pinecone connection error: "
  | 7 => "   ❌ Gemini AI error: "
  | _ => ""
  end%nat.

(** An exception text raised by a package call of block [k], the calls
    before it in the block having returned, in a process started with
    environment [env]. *)
Definition raised_in
  (w : World) (env : gmap string string) (k : nat) (e : string) : Prop :=
  match k with
  | 1 => ∃ m, m ∈ test_setup_modules ∧ import_module w m = Raises e
  | 2 => load_dotenv w env = Raises e
  | 3 => load_pdf_file w "Data/" = Raises e
  | 4 => ∃ d, load_pdf_file w "Data/" = Returns d ∧ text_split w d = Raises e
  | 5 => download_hugging_face_embeddings w = Raises e
  | 6 => Pinecone w (dotenv_environ w env !! "PINECONE_API_KEY") = Raises e ∨
         ∃ pc, Pinecone w (dotenv_environ w env !! "PINECONE_API_KEY")
               = Returns pc ∧
               list_indexes w pc = Raises e
  | 7 => ChatGoogleGenerativeAI w (dotenv_environ w env)
           "gemini-1.5-flash" 0.4%Q = Raises e ∨
         ∃ llm, ChatGoogleGenerativeAI w (dotenv_environ w env)
                  "gemini-1.5-flash" 0.4%Q = Returns llm ∧
                invoke w llm "Hello, this is a test." = Raises e
  | _ => False
  end%nat.

(** What the failure line of block [k] says: a key is missing or empty
    (block 2 only), or a package call of the block raised and the line is
    the block's prefix followed by the text of the exception. *)
Definition failure_report
  (w : World) (env : gmap string string) (k : nat) (l : string) : Prop :=
  (k = 2%nat ∧
   (∃ env', load_dotenv w env = Returns env') ∧
   truthy (dotenv_environ w env !! "PINECONE_API_KEY")
   && truthy (dotenv_environ w env !! "GOOGLE_API_KEY") = false ∧
   l = "   ❌ API keys not found in .env file") ∨
  ∃ e, raised_in w env k e ∧ l = failure_prefix k +:+ e.

(** What the success of block [k] stands for: the package calls of the
    block returned, and the success line shows what they returned. *)
Definition success_report
  (w : World) (env : gmap string string) (k : nat) (ls : list string) : Prop :=
  match k with
  | 1 => imports_succeed w test_setup_modules
  | 2 => (∃ env', load_dotenv w env = Returns env') ∧
         truthy (dotenv_environ w env !! "PINECONE_API_KEY") = true ∧
         truthy (dotenv_environ w env !! "GOOGLE_API_KEY") = true
  | 3 => ∃ d, load_pdf_file w "Data/" = Returns d ∧
              "   ✅ Loaded " +:+ pretty (length d) +:+ " PDF pages!" ∈ ls
  | 4 => ∃ d ch, load_pdf_file w "Data/" = Returns d ∧
                 text_split w d = Returns ch ∧
                 "   ✅ Created " +:+ pretty (length ch) +:+ " text chunks!"
                 ∈ ls
  | 5 => ∃ m, download_hugging_face_embeddings w = Returns m
  | 6 => ∃ pc idxs,
           Pinecone w (dotenv_environ w env !! "PINECONE_API_KEY")
           = Returns pc ∧
           list_indexes w pc = Returns idxs ∧
           "   ✅ Pinecone connected! Available indexes: "
           +:+ str_list w (map name idxs) ∈ ls
  | 7 => ∃ llm msg,
           ChatGoogleGenerativeAI w (dotenv_environ w env)
             "gemini-1.5-flash" 0.4%Q = Returns llm ∧
           invoke w llm "Hello, this is a test." = Returns msg ∧
           "   Test response: " +:+ str_take 50 (content msg)
           +:+ "..." ∈ ls
  | _ => True
  end%nat.

(** The module globals when block [k] starts: from block 3 on both keys
    are bound to the truthy values the environment holds after
    [load_dotenv]; from block 4 on [extracted_data] is bound to the
    documents [load_pdf_file] returned. *)
Definition keys_bound
  (w : World) (env : gmap string string) (s : Store) : Prop :=
  environ s = dotenv_environ w env ∧
  PINECONE_API_KEY s = Some (dotenv_environ w env !! "PINECONE_API_KEY") ∧
  GOOGLE_API_KEY s = Some (dotenv_environ w env !! "GOOGLE_API_KEY") ∧
  truthy (dotenv_environ w env !! "PINECONE_API_KEY") = true ∧
  truthy (dotenv_environ w env !! "GOOGLE_API_KEY") = true.

Definition docs_bound (w : World) (s : Store) : Prop :=
  ∃ d, extracted_data s = Some d ∧ load_pdf_file w "Data/" = Returns d.

(** Each module global is unbound or holds the one value the script
    assigns to it: the key the environment holds after [load_dotenv], the
    documents [load_pdf_file] returned. *)
Definition globals_kept
  (w : World) (env : gmap string string) (s : Store) : Prop :=
  (PINECONE_API_KEY s = None ∨
   PINECONE_API_KEY s = Some (dotenv_environ w env !! "PINECONE_API_KEY")) ∧
  (GOOGLE_API_KEY s = None ∨
   GOOGLE_API_KEY s = Some (dotenv_environ w env !! "GOOGLE_API_KEY")) ∧
  (extracted_data s = None ∨
   ∃ d, extracted_data s = Some d ∧ load_pdf_file w "Data/" = Returns d).

Definition globals_pre
  (w : World) (env : gmap string string) (k : nat) (s : Store) : Prop :=
  globals_kept w env s ∧
  match k with
  | 0 | 1 | 2 => environ s = env
  | 3 => keys_bound w env s
  | _ => keys_bound w env s ∧ docs_bound w s
  end%nat.

(** The tip the Gemini handler prints after its failure line, and the
    lines a failing block prints after its failure line. *)
Definition gemini_tip : string :=
  "   💡 Tip: Check if your Google API key is valid and has Gemini access enabled".

Definition after_failure (k : nat) : list string :=
  match k with
  | 7 => [gemini_tip]
  | _ => []
  end%nat.

(** The lines a passing block prints after its success line: none, but for
    block 7 the preview of the reply of the model. *)
Definition after_success (w : World) (k : nat) (extra : list string) : Prop :=
  match k with
  | 7 => ∃ llm msg,
           invoke w llm "Hello, this is a test." = Returns msg ∧
           extra = [ "   Test response: " +:+ str_take 50 (content msg)
                     +:+ "..." ]
  | _ => extra = []
  end%nat.

(** The output of block [k], call by call: the begin line with the number
    of the block, the calls, the success or the failure line, and what
    follows it. *)
Definition block_output (w : World) (k : nat) (t : list Event) : Prop :=
  ∃ b acts v extra,
    split_check t = Some (b, acts, v :: extra) ∧
    classify b = Begin k ∧
    ((classify v = Success ∧ after_success w k extra) ∨
     (classify v = Failure ∧ extra = after_failure k)).

(** Block [k] passes, as a fact about the world: the package calls of the
    block return (and, for block 2, both keys are truthy). *)
Definition check_passes
  (w : World) (env : gmap string string) (k : nat) : Prop :=
  match k with
  | 1 => imports_succeed w test_setup_modules
  | 2 => (∃ env', load_dotenv w env = Returns env') ∧
         truthy (dotenv_environ w env !! "PINECONE_API_KEY") = true ∧
         truthy (dotenv_environ w env !! "GOOGLE_API_KEY") = true
  | 3 => ∃ d, load_pdf_file w "Data/" = Returns d
  | 4 => ∃ d ch, load_pdf_file w "Data/" = Returns d ∧
                 text_split w d = Returns ch
  | 5 => ∃ m, download_hugging_face_embeddings w = Returns m
  | 6 => ∃ pc idxs,
           Pinecone w (dotenv_environ w env !! "PINECONE_API_KEY")
           = Returns pc ∧
           list_indexes w pc = Returns idxs
  | 7 => ∃ llm msg,
           ChatGoogleGenerativeAI w (dotenv_environ w env)
             "gemini-1.5-flash" 0.4%Q = Returns llm ∧
           invoke w llm "Hello, this is a test." = Returns msg
  | _ => True
  end%nat.

(** Block [k] fails, as a fact about the world: one of its package calls
    raises, or (block 2) [load_dotenv] returns and a key is missing or
    empty. *)
Definition check_fails
  (w : World) (env : gmap string string) (k : nat) : Prop :=
  (k = 2%nat ∧
   (∃ env', load_dotenv w env = Returns env') ∧
   truthy (dotenv_environ w env !! "PINECONE_API_KEY")
   && truthy (dotenv_environ w env !! "GOOGLE_API_KEY") = false) ∨
  ∃ e, raised_in w env k e.

(** The calls into the collaborators: the Pinecone client, the document
    loader and splitter, the embedding model and the language model. *)
Definition is_collaborator (a : Action) : bool :=
  match a with
  | Import _ | LoadDotenv | EnvironGet _ | EnvironSet _ _ => false
  | LoadPdfFile _ | TextSplit _ | DownloadEmbeddings | PineconeInit _
  | ListIndexes | ChatInit _ | Invoke _ => true
  end.

(** A world in which [src.helper] cannot be imported. *)
Definition world_no_helper : World := {|
  import_module := λ m, if String.eqb m "src.helper"
                        then Raises "No module named 'src.helper'"
                        else Returns ();
  load_dotenv := load_dotenv world_ok;
  load_pdf_file := load_pdf_file world_ok;
  text_split := text_split world_ok;
  download_hugging_face_embeddings := download_hugging_face_embeddings world_ok;
  Pinecone := Pinecone world_ok;
  list_indexes := list_indexes world_ok;
  ChatGoogleGenerativeAI := ChatGoogleGenerativeAI world_ok;
  invoke := invoke world_ok;
  repr := repr world_ok
|}.

(** The missing-key property as worded: with a key absent, the run fails
    at the environment-variable check, the second block, with exit status
    1 and without a call into a collaborator. *)
Definition missing_key_as_worded
  (w : World) (env : gmap string string) : Prop :=
  dotenv_environ w env !! "PINECONE_API_KEY" = None ∨
  dotenv_environ w env !! "GOOGLE_API_KEY" = None →
  let r := run_script (test_setup w) env in
  failing_check w env = Some 2%nat ∧
  exit_status (outcome r) = 1 ∧
  Forall (λ a, is_collaborator a = false) (actions (trace r)).

(** The documents [load_pdf_file] returns, none when it raises. *)
Definition loaded_documents (w : World) : list Document :=
  match load_pdf_file w "Data/" with
  | Returns d => d
  | Raises _ => []
  end.

(** The calls written in block [k] of [test_setup.py], in source order,
    with the arguments they get in a process started with environment
    [env]. *)
Definition block_calls
  (w : World) (env : gmap string string) (k : nat) : list Action :=
  match k with
  | 1 => map Import test_setup_modules
  | 2 => [ LoadDotenv; EnvironGet "PINECONE_API_KEY";
           EnvironGet "GOOGLE_API_KEY" ]
  | 3 => [ LoadPdfFile "Data/" ]
  | 4 => [ TextSplit (loaded_documents w) ]
  | 5 => [ DownloadEmbeddings ]
  | 6 => [ PineconeInit (dotenv_environ w env !! "PINECONE_API_KEY");
           ListIndexes ]
  | 7 => [ EnvironSet "GOOGLE_API_KEY"
             (default "" (dotenv_environ w env !! "GOOGLE_API_KEY"));
           ChatInit "gemini-1.5-flash";
           Invoke "Hello, this is a test." ]
  | _ => []
  end%nat.

Definition block_post
  (w : World) (env : gmap string string) (k : nat) (r : Res unit) : Prop :=
  (outcome r ≠ Ret () →
   ∃ pre l, lines (trace r) = (pre ++ l :: after_failure k)%list ∧
            failure_report w env k l) ∧
  (outcome r = Ret () → success_report w env k (lines (trace r))) ∧
  (∀ key, PineconeInit key ∈ actions (trace r) →
          key = dotenv_environ w env !! "PINECONE_API_KEY" ∧
          truthy key = true) ∧
  ("🎉 ALL TESTS PASSED! Your medical chatbot is ready!" ∉ lines (trace r)) ∧
  (outcome r = Ret () → actions (trace r) = block_calls w env k) ∧
  actions (trace r) `prefix_of` block_calls w env k ∧
  globals_kept w env (store r).

Definition block_spec
  (w : World) (env : gmap string string) (k : nat) (c : M unit) : Prop :=
  ∀ s, globals_pre w env k s →
       block_post w env k (c s) ∧
       (outcome (c s) = Ret () → globals_pre w env (S k) (store (c s))).

(** The calls written in [test_setup.py], block after block. *)
Definition test_setup_calls
  (w : World) (env : gmap string string) : list Action :=
  flat_map (block_calls w env) (seq 1 7).

(** ** Basic facts about traces and the monad *)

Lemma lines_app (t1 t2 : list Event) :
  lines (t1 ++ t2) = (lines t1 ++ lines t2)%list.
Proof.
  induction t1 as [|[l|a] t1 IH]; simpl; [done| |done].
  by rewrite IH.
Qed.

Lemma actions_app (t1 t2 : list Event) :
  actions (t1 ++ t2) = (actions t1 ++ actions t2)%list.
Proof.
  induction t1 as [|[l|a] t1 IH]; simpl; [done|done|].
  by rewrite IH.
Qed.

Lemma kinds_app (t1 t2 : list Event) :
  kinds (t1 ++ t2) = (kinds t1 ++ kinds t2)%list.
Proof. unfold kinds. by rewrite lines_app, map_app. Qed.

Lemma bind_eq {A B : Type} (m : M A) (k : A → M B) (s : Store) :
  (m ≫= k) s =
  match outcome (m s) with
  | Ret a => mkRes (outcome (k a (store (m s)))) (store (k a (store (m s))))
                   (trace (m s) ++ trace (k a (store (m s))))
  | Exc e => mkRes (Exc e) (store (m s)) (trace (m s))
  | Exit c => mkRes (Exit c) (store (m s)) (trace (m s))
  end.
Proof.
  unfold mbind, M_bind. destruct (m s) as [[a|e|c] s' t]; simpl; [|done..].
  by destruct (k a s').
Qed.

Lemma bind_assoc {A B C : Type} (m : M A) (f : A → M B) (g : B → M C) s :
  ((m ≫= f) ≫= g) s = (m ≫= (λ a, f a ≫= g)) s.
Proof.
  rewrite !bind_eq. destruct (outcome (m s)) as [a|e|c]; simpl; [|done..].
  rewrite !bind_eq. destruct (outcome (f a (store (m s)))); simpl; [|done..].
  by rewrite app_assoc.
Qed.

Lemma ret_bind {A B : Type} (a : A) (k : A → M B) s :
  (mret a ≫= k) s = k a s.
Proof. rewrite bind_eq. simpl. by destruct (k a s). Qed.

(** ** The seven blocks, one by one *)

(** Symbolic execution of a block: unfold the monad, then split on what the
    next package call, name lookup or test does. *)
Ltac run_block :=
  unfold try_except, call, print, exit, use, environ_get, environ_set,
    do_load_dotenv, current_environ, assign_PINECONE_API_KEY,
    assign_GOOGLE_API_KEY, assign_extracted_data, mbind, M_bind, mret, M_ret,
    prepend;
  repeat (cbn -[pretty String.append str_list classify];
          match goal with
          | |- context [match ?x with Returns _ => _ | Raises _ => _ end] =>
              destruct x
          | |- context [match ?x with Some _ => _ | None => _ end] =>
              destruct x
          | |- context [if ?b then _ else _] => destruct b
          end);
  cbn -[pretty String.append str_list classify].

Ltac summary_cases :=
  run_block;
  (split; [repeat constructor|]);
  unfold kinds;
  first [left; split; reflexivity | right; split; reflexivity].

Lemma test_1_summary (w : World) (s : Store) : check_summary 1 (test_1 w s).
Proof. unfold check_summary, test_1. summary_cases. Qed.

Lemma test_2_summary (w : World) (s : Store) : check_summary 2 (test_2 w s).
Proof. unfold check_summary, test_2. summary_cases. Qed.

Lemma test_3_summary (w : World) (s : Store) : check_summary 3 (test_3 w s).
Proof. unfold check_summary, test_3. summary_cases. Qed.

Lemma test_4_summary (w : World) (s : Store) : check_summary 4 (test_4 w s).
Proof. unfold check_summary, test_4. summary_cases. Qed.

Lemma test_5_summary (w : World) (s : Store) : check_summary 5 (test_5 w s).
Proof. unfold check_summary, test_5. summary_cases. Qed.

Lemma test_6_summary (w : World) (s : Store) : check_summary 6 (test_6 w s).
Proof. unfold check_summary, test_6. summary_cases. Qed.

Lemma test_7_summary (w : World) (s : Store) : check_summary 7 (test_7 w s).
Proof. unfold check_summary, test_7. summary_cases. Qed.

Lemma checks_summary (w : World) (i : nat) (c : M unit) (s : Store) :
  checks w !! i = Some c → check_summary (1 + i) (c s).
Proof.
  unfold checks. intros H.
  do 7 (destruct i as [|i];
        [injection H as <-;
         first [apply test_1_summary | apply test_2_summary
               | apply test_3_summary | apply test_4_summary
               | apply test_5_summary | apply test_6_summary
               | apply test_7_summary]
        |simpl in H]).
  discriminate.
Qed.

(** ** Running a list of blocks *)

Section Checklist.
Context (cs : list (M unit)).

Lemma run_checks_cons (c : M unit) (cs' : list (M unit)) (s : Store) :
  run_checks (c :: cs') s =
  match outcome (c s) with
  | Ret _ =>
      let r' := run_checks cs' (store (c s)) in
      mkRes (outcome r') (store r') (trace (c s) ++ trace r')
  | Exc e => mkRes (Exc e) (store (c s)) (trace (c s))
  | Exit n => mkRes (Exit n) (store (c s)) (trace (c s))
  end.
Proof. exact (bind_eq c (λ _, run_checks cs') s). Qed.

Lemma run_checks_passed (c : M unit) (cs' : list (M unit)) s s' t :
c s = mkRes (Ret ()) s' t →
run_checks (c :: cs') s = prepend t (run_checks cs' s').
Proof.
intros H. cbn [run_checks]. unfold mbind, M_bind. by rewrite H.
Qed.

Lemma run_checks_stopped (c : M unit) (cs' : list (M unit)) s s' t n :
c s = mkRes (Exit n) s' t →
run_checks (c :: cs') s = mkRes (Exit n) s' t.
Proof.
intros H. cbn [run_checks]. unfold mbind, M_bind. by rewrite H.
Qed.

(** The trace of the run is the traces of the blocks that ran, in order. *)
Lemma traces_of_concat (s : Store) :
  concat (traces_of cs s) = trace (run_checks cs s).
Proof.
  revert s. induction cs as [|c cs' IH]; intros s; [done|].
  rewrite run_checks_cons. simpl.
  destruct (outcome (c s)); simpl; [|by rewrite app_nil_r..].
  by rewrite IH.
Qed.
End Checklist.

(** Fail-fast, on any list of blocks that each satisfy [check_summary]:
    the run ends at the first block that does not run to its end, with that
    block's exit status, and the output is the lines of the passed blocks
    followed by the lines of the failed one. *)
Lemma run_checks_summary (cs : list (M unit)) (k0 : nat) (s : Store) :
  (∀ i c s', cs !! i = Some c → check_summary (k0 + i) (c s')) →
  let r := run_checks cs s in
  match first_failure cs k0 s with
  | None =>
      outcome r = Ret () ∧
      kinds (trace r) = flat_map passed_kinds (seq k0 (length cs))
  | Some k =>
      (k0 ≤ k < k0 + length cs)%nat ∧
      outcome r = Exit 1 ∧
      kinds (trace r) =
        (flat_map passed_kinds (seq k0 (k - k0)) ++ failed_kinds k)%list
  end.
Proof.
  revert k0 s. induction cs as [|c cs' IH]; intros k0 s Hcs; [done|].
  cbv zeta. rewrite run_checks_cons. simpl first_failure.
  destruct (Hcs 0%nat c s eq_refl) as [_ [[Ho Hk]|[Ho Hk]]];
    rewrite Nat.add_0_r in Hk; rewrite Ho.
  - specialize (IH (S k0) (store (c s))).
    assert (Hcs' : ∀ i c' s', cs' !! i = Some c' →
                              check_summary (S k0 + i) (c' s')).
    { intros i c' s' Hi. replace (S k0 + i)%nat with (k0 + S i)%nat by lia.
      by apply Hcs. }
    specialize (IH Hcs'). cbv zeta in IH.
    destruct (first_failure cs' (S k0) (store (c s))) as [k|].
    + destruct IH as (Hb & Ho' & Hk'). simpl.
      split; [lia|]. split; [done|].
      rewrite kinds_app, Hk, Hk'.
      replace (k - k0)%nat with (S (k - S k0)) by lia.
      simpl. by rewrite <- app_assoc.
    + destruct IH as (Ho' & Hk'). simpl. split; [done|].
      by rewrite kinds_app, Hk, Hk'.
  - simpl. split; [lia|]. split; [done|].
    by rewrite Nat.sub_diag, Hk.
Qed.

(** No package call of a block after the failed one is made, and the calls
    are made in the order of the blocks. *)
Lemma run_checks_actions (cs : list (M unit)) (k0 : nat) (s : Store) :
  (∀ i c s', cs !! i = Some c → check_summary (k0 + i) (c s')) →
  let l := map check_of (actions (trace (run_checks cs s))) in
  Forall (λ j, (k0 ≤ j)%nat ∧
               ∀ k, first_failure cs k0 s = Some k → (j ≤ k)%nat) l ∧
  StronglySorted le l.
Proof.
  revert k0 s. induction cs as [|c cs' IH]; intros k0 s Hcs.
  { simpl. split; constructor. }
  cbv zeta. rewrite run_checks_cons. simpl first_failure.
  destruct (Hcs 0%nat c s eq_refl) as [Ha Ho].
  rewrite Nat.add_0_r in Ha.
  assert (Hhd : Forall (λ j, j = k0) (map check_of (actions (trace (c s))))).
  { by apply Forall_map. }
  assert (Hsd : StronglySorted le (map check_of (actions (trace (c s))))).
  { clear -Hhd. induction Hhd as [|j l -> Hl IHl]; constructor; [done|].
    eapply Forall_impl; [exact Hl|]. intros ? ->. done. }
  destruct Ho as [[Ho _]|[Ho _]]; rewrite Ho.
  - specialize (IH (S k0) (store (c s))).
    assert (Hcs' : ∀ i c' s', cs' !! i = Some c' →
                              check_summary (S k0 + i) (c' s')).
    { intros i c' s' Hi. replace (S k0 + i)%nat with (k0 + S i)%nat by lia.
      by apply Hcs. }
    destruct (IH Hcs') as [Hb Hs]. simpl.
    rewrite actions_app, map_app. split.
    + apply Forall_app. split.
      * eapply Forall_impl; [exact Hhd|]. intros j ->. split; [done|].
        intros k Hk.
        pose proof (run_checks_summary cs' (S k0) (store (c s)) Hcs') as Hr.
        cbv zeta in Hr. rewrite Hk in Hr. lia.
      * eapply Forall_impl; [exact Hb|]. intros j [? Hj]. split; [lia|done].
    + apply StronglySorted_app_2; [|done|done].
      intros x1 x2 H1 H2.
      rewrite Forall_forall in Hhd, Hb.
      rewrite (Hhd x1 H1). destruct (Hb x2 H2). lia.
  - simpl. split; [|done].
    eapply Forall_impl; [exact Hhd|]. intros j ->. split; [done|].
    by intros k [= <-].
Qed.

(** ** The whole of test_setup.py *)

Lemma bind_ext {A B : Type} (m : M A) (f g : A → M B) (s : Store) :
  (∀ a s', f a s' = g a s') → (m ≫= f) s = (m ≫= g) s.
Proof.
  intros Hfg. rewrite !bind_eq. destruct (outcome (m s)); [|done..].
  by rewrite Hfg.
Qed.

Lemma run_checks_then (cs : list (M unit)) (rest : M unit) (s : Store) :
  (run_checks cs;; rest) s = checks_then cs rest s.
Proof.
  revert s. induction cs as [|c cs' IH]; intros s; simpl.
  - apply ret_bind.
  - rewrite bind_assoc. apply bind_ext. intros _ s'. apply IH.
Qed.

(** The module body is its two header lines, the seven blocks, and the
    closing lines. *)
Lemma test_setup_checklist (w : World) (s : Store) :
  test_setup w s =
  (print "🔍 Testing Medical Chatbot Setup...";;
   print (str_mul "=" 50);;
   (run_checks (checks w);; next_steps)) s.
Proof.
  unfold test_setup.
  apply bind_ext. intros _ s1. apply bind_ext. intros _ s2.
  by rewrite run_checks_then.
Qed.

Lemma test_setup_run (w : World) (s : Store) :
  let rc := run_checks (checks w) s in
  test_setup w s =
  match outcome rc with
  | Ret _ =>
      mkRes (Ret ()) (store rc)
            (Print "🔍 Testing Medical Chatbot Setup..."
             :: Print (str_mul "=" 50)
             :: trace rc ++ trace (next_steps (store rc)))
  | Exc e =>
      mkRes (Exc e) (store rc)
            (Print "🔍 Testing Medical Chatbot Setup..."
             :: Print (str_mul "=" 50) :: trace rc)
  | Exit n =>
      mkRes (Exit n) (store rc)
            (Print "🔍 Testing Medical Chatbot Setup..."
             :: Print (str_mul "=" 50) :: trace rc)
  end.
Proof.
  cbv zeta. rewrite test_setup_checklist.
  rewrite bind_eq. cbn [print outcome store trace].
  rewrite bind_eq. cbn [print outcome store trace].
  rewrite bind_eq.
  by destruct (outcome (run_checks (checks w) s)).
Qed.

Lemma count_kinds (p : string → bool) (q : Kind → bool) (t : list Event) :
  (∀ l, p l = q (classify l)) →
  count p (lines t) = length (List.filter q (kinds t)).
Proof.
  intros Hpq. unfold count, kinds.
  induction (lines t) as [|l ls IH]; simpl; [done|].
  rewrite Hpq. destruct (q (classify l)); simpl; by rewrite IH.
Qed.

Lemma begin_lines_kinds (t : list Event) :
  begin_lines t = length (List.filter kind_is_begin (kinds t)).
Proof. apply count_kinds. intros l. unfold is_begin. by destruct (classify l). Qed.

Lemma success_lines_kinds (t : list Event) :
  success_lines t =
  length (List.filter (λ k, bool_decide (k = Success)) (kinds t)).
Proof. by apply count_kinds. Qed.

Lemma failure_lines_kinds (t : list Event) :
  failure_lines t =
  length (List.filter (λ k, bool_decide (k = Failure)) (kinds t)).
Proof. by apply count_kinds. Qed.

Lemma kinds_header (t : list Event) :
  kinds (Print "🔍 Testing Medical Chatbot Setup..."
         :: Print (str_mul "=" 50) :: t)
  = Plain :: Plain :: kinds t.
Proof. reflexivity. Qed.

(** What a run of [test_setup.py] as a fresh process does, by the number of
    the first block that fails. *)
Lemma test_setup_summary (w : World) (env : gmap string string) :
  let r := run_script (test_setup w) env in
  let rc := run_checks (checks w) (init_store env) in
  actions (trace r) = actions (trace rc) ∧
  match failing_check w env with
  | None =>
      outcome r = Ret () ∧
      trace r = (Print "🔍 Testing Medical Chatbot Setup..."
                 :: Print (str_mul "=" 50)
                 :: trace rc ++ trace (next_steps (store rc))) ∧
      kinds (trace r) =
        ([Plain; Plain] ++ flat_map passed_kinds (seq 1 7)
         ++ replicate 6 Plain)%list
  | Some k =>
      (1 ≤ k ≤ 7)%nat ∧
      outcome r = Exit 1 ∧
      trace r = (Print "🔍 Testing Medical Chatbot Setup..."
                 :: Print (str_mul "=" 50) :: trace rc) ∧
      kinds (trace r) =
        ([Plain; Plain] ++ flat_map passed_kinds (seq 1 (k - 1))
         ++ failed_kinds k)%list
  end.
Proof.
  cbv zeta. unfold run_script, failing_check.
  pose proof (run_checks_summary (checks w) 1 (init_store env)
                (λ i c s', checks_summary w i c s')) as Hr.
  cbv zeta in Hr. rewrite test_setup_run. cbv zeta.
  set (rc := run_checks (checks w) (init_store env)) in *. clearbody rc.
  destruct (first_failure (checks w) 1 (init_store env)) as [k|].
  - destruct Hr as (Hk & Ho & Hkinds). rewrite Ho.
    cbn [outcome store trace actions].
    split; [done|]. split; [simpl in Hk; lia|]. split; [done|].
    split; [done|].
    by rewrite kinds_header, Hkinds.
  - destruct Hr as (Ho & Hkinds). rewrite Ho.
    cbn [outcome store trace actions].
    split; [by rewrite actions_app, app_nil_r|]. split; [done|].
    split; [done|].
    rewrite kinds_header, kinds_app, Hkinds. reflexivity.
Qed.

(** ** Fail-fast, the failed run and the successful run *)

Lemma failing_check_cases (k : nat) :
  (1 ≤ k ≤ 7)%nat →
  k = 1%nat ∨ k = 2%nat ∨ k = 3%nat ∨ k = 4%nat ∨ k = 5%nat ∨ k = 6%nat
  ∨ k = 7%nat.
Proof. lia. Qed.

Lemma last_kind (t : list Event) (kd : Kind) :
  last (kinds t) = Some kd →
  ∃ l, last (lines t) = Some l ∧ classify l = kd.
Proof.
  unfold kinds. rewrite fmap_last.
  destruct (last (lines t)) as [l|]; simpl; [|done].
  intros [= <-]. by exists l.
Qed.

(** C3, as worded, fails when the Gemini block is the one that fails: the
    tip line is printed after the failure line. *)
Lemma failure_report_not_last_at_gemini :
  ¬ failed_run_as_worded world_gemini_down env_ok 7.
Proof.
  intros H. destruct (H ltac:(vm_compute; reflexivity)) as (_ & _ & _ & Hl).
  vm_compute in Hl. discriminate.
Qed.

Lemma checks_make_a_call (w : World) (i : nat) (c : M unit) (s : Store) :
  checks w !! i = Some c →
  outcome (c s) = Ret () → actions (trace (c s)) ≠ [].
Proof.
  unfold checks. intros H.
  do 7 (destruct i as [|i];
        [injection H as <-;
         unfold test_1, test_2, test_3, test_4, test_5, test_6, test_7;
         run_block; done
        |simpl in H]).
  discriminate.
Qed.

(** When every block runs to its end, every block has made a call. *)
Lemma run_checks_all_called (cs : list (M unit)) (k0 : nat) (s : Store) :
  (∀ i c s', cs !! i = Some c → check_summary (k0 + i) (c s')) →
  (∀ i c s', cs !! i = Some c →
             outcome (c s') = Ret () → actions (trace (c s')) ≠ []) →
  first_failure cs k0 s = None →
  ∀ j, (k0 ≤ j < k0 + length cs)%nat →
       j ∈ map check_of (actions (trace (run_checks cs s))).
Proof.
  revert k0 s. induction cs as [|c cs' IH]; intros k0 s Hcs Hcall Hnone j Hj.
  { simpl in Hj. lia. }
  rewrite run_checks_cons. simpl in Hnone.
  destruct (Hcs 0%nat c s eq_refl) as [Ha [[Ho _]|[Ho _]]];
    rewrite Ho in Hnone; [|done].
  rewrite Ho. simpl. rewrite actions_app, map_app, elem_of_app.
  rewrite Nat.add_0_r in Ha.
  destruct (decide (j = k0)) as [->|Hne].
  - left. pose proof (Hcall 0%nat c s eq_refl Ho) as Hnil.
    destruct (actions (trace (c s))) as [|a l]; [done|].
    apply Forall_cons in Ha as [<- _]. simpl. left.
  - right. apply (IH (S k0)); [| |done|simpl in Hj; lia].
    + intros i c' s' Hi. replace (S k0 + i)%nat with (k0 + S i)%nat by lia.
      by apply Hcs.
    + intros i c' s' Hi. by apply (Hcall (S i)).
Qed.

(** C6. When every block of [test_setup.py] succeeds, the process exits
    with status 0; the seven blocks run in source order (their begin lines
    appear as 1 to 7, every block makes its calls, and the calls are in
    block order); there are as many success lines as blocks; and after the
    lines of the last block the output ends with the separator, the success
    banner and the next-steps guidance. *)
Theorem all_checks_pass (w : World) (env : gmap string string) :
  failing_check w env = None →
  let r := run_script (test_setup w) env in
  let t := trace r in
  exit_status (outcome r) = 0 ∧
  success_lines t = length (checks w) ∧
  List.filter kind_is_begin (kinds t) = map Begin (seq 1 (length (checks w))) ∧
  StronglySorted le (map check_of (actions t)) ∧
  (∀ j, (1 ≤ j ≤ length (checks w))%nat → j ∈ map check_of (actions t)) ∧
  ∃ pre, lines t = (pre ++ closing_lines)%list ∧
         map classify pre =
           ([Plain; Plain] ++ flat_map passed_kinds (seq 1 7))%list.
Proof.
  intros Hnone. cbv zeta.
  destruct (test_setup_summary w env) as [Ha Hs]. rewrite Hnone in Hs.
  destruct Hs as (Ho & Ht & Hkinds).
  pose proof (run_checks_summary (checks w) 1 (init_store env)
                (λ i c s', checks_summary w i c s')) as Hrc.
  cbv zeta in Hrc. fold (failing_check w env) in Hrc. rewrite Hnone in Hrc.
  destruct Hrc as [_ Hkrc].
  rewrite success_lines_kinds, Ho, Hkinds, Ha.
  split; [done|]. split; [done|]. split; [done|]. split; [|split].
  - apply (run_checks_actions (checks w) 1 (init_store env)
             (λ i c s', checks_summary w i c s')).
  - intros j Hj.
    apply (run_checks_all_called (checks w) 1 (init_store env)
             (λ i c s', checks_summary w i c s')
             (λ i c s', checks_make_a_call w i c s')); [done|].
    simpl in *. lia.
  - exists ("🔍 Testing Medical Chatbot Setup..." :: str_mul "=" 50
            :: lines (trace (run_checks (checks w) (init_store env)))).
    split.
    + rewrite Ht. simpl. by rewrite lines_app.
    + change (Plain :: Plain
              :: kinds (trace (run_checks (checks w) (init_store env)))
              = ([Plain; Plain] ++ flat_map passed_kinds (seq 1 7))%list).
      by rewrite Hkrc.
Qed.

(** A run in which every package call succeeds. *)
Lemma all_checks_pass_witness :
  failing_check world_ok env_ok = None ∧
  let r := run_script (test_setup world_ok) env_ok in
  let t := trace r in
  exit_status (outcome r) = 0 ∧
  success_lines t = length (checks world_ok) ∧
  List.filter kind_is_begin (kinds t)
    = map Begin (seq 1 (length (checks world_ok))) ∧
  StronglySorted le (map check_of (actions t)) ∧
  (∀ j, (1 ≤ j ≤ length (checks world_ok))%nat
        → j ∈ map check_of (actions t)) ∧
  ∃ pre, lines t = (pre ++ closing_lines)%list ∧
         map classify pre =
           ([Plain; Plain] ++ flat_map passed_kinds (seq 1 7))%list.
Proof.
  split; [vm_compute; reflexivity|].
  apply (all_checks_pass world_ok env_ok).
  vm_compute; reflexivity.
Defined.

(** ** check_pinecone.py *)

(** Symbolic execution along one path: what each call does is given by a
    hypothesis. *)
Ltac rewrite_calls :=
  repeat match goal with
         | H : @eq (pyresult _) ?x _ |- context [?x] => rewrite H
         | H : @eq bool ?x _ |- context [?x] => rewrite H
         end.

Ltac run_path :=
  unfold try_except, call, print, exit, use, environ_get, environ_set,
    do_load_dotenv, current_environ, assign_PINECONE_API_KEY,
    assign_GOOGLE_API_KEY, assign_extracted_data, mbind, M_bind, mret, M_ret,
    prepend;
  repeat (progress (rewrite_calls;
                    cbn -[pretty String.append str_list classify lookup
                          insert truthy andb bool_decide])).

Lemma check_pinecone_listed
  (w : World) (env : gmap string string) (idxs : list IndexModel) :
  lists_indexes w env idxs →
  let r := run_script (check_pinecone w) env in
  outcome r = Ret () ∧
  lines (trace r) =
    "🔍 Checking Pinecone Index..."
    :: ("📋 Available indexes: " +:+ str_list w (map name idxs))
    :: (if bool_decide ("medicalbot" ∈ map name idxs)
        then [ "✅ 'medicalbot' index exists!";
               "🎉 Your Pinecone setup is ready!" ]
        else [ "⚠️  'medicalbot' index not found.";
               "📝 Run: python store_index.py to create it" ]).
Proof.
  intros (H1 & H2 & H3 & env' & pc & Hd & Hk & Hpc & Hl).
  unfold run_script, check_pinecone, init_store. run_path.
  by destruct (bool_decide ("medicalbot" ∈ map name idxs)).
Qed.

(** C4. In a run of [check_pinecone.py] that gets a list of indexes back,
    the script reports success (the index-exists line and the ready line)
    exactly when ["medicalbot"] is among the names returned, and otherwise
    prints the not-found line and the guidance to create the index. *)
Theorem check_pinecone_reports_index
  (w : World) (env : gmap string string) (idxs : list IndexModel) :
  lists_indexes w env idxs →
  let ls := lines (trace (run_script (check_pinecone w) env)) in
  ("✅ 'medicalbot' index exists!" ∈ ls ↔ "medicalbot" ∈ map name idxs) ∧
  ("medicalbot" ∈ map name idxs →
   ls = [ "🔍 Checking Pinecone Index...";
          "📋 Available indexes: " +:+ str_list w (map name idxs);
          "✅ 'medicalbot' index exists!";
          "🎉 Your Pinecone setup is ready!" ]) ∧
  ("medicalbot" ∉ map name idxs →
   ls = [ "🔍 Checking Pinecone Index...";
          "📋 Available indexes: " +:+ str_list w (map name idxs);
          "⚠️  'medicalbot' index not found.";
          "📝 Run: python store_index.py to create it" ]).
Proof.
  intros H. cbv zeta.
  destruct (check_pinecone_listed w env idxs H) as [_ Hl]. rewrite Hl.
  destruct (decide ("medicalbot" ∈ map name idxs)) as [Hin|Hnot].
  - rewrite bool_decide_eq_true_2 by done.
    split; [|by split]. split; [done|]. intros _.
    do 2 apply list_elem_of_further. apply list_elem_of_here.
  - rewrite bool_decide_eq_false_2 by done.
    split; [|by split]. split; [|done]. intros Hel.
    repeat (apply elem_of_cons in Hel as [Hel|Hel];
            [simpl in Hel; discriminate|]).
    by apply elem_of_nil in Hel.
Qed.

(** A run in which the service lists the [medicalbot] index. *)
Lemma check_pinecone_reports_index_witness :
  lists_indexes world_ok env_ok [ {| name := "medicalbot" |} ] ∧
  let ls := lines (trace (run_script (check_pinecone world_ok) env_ok)) in
  ("✅ 'medicalbot' index exists!" ∈ ls
   ↔ "medicalbot" ∈ map name [ {| name := "medicalbot" |} ]) ∧
  ("medicalbot" ∈ map name [ {| name := "medicalbot" |} ] →
   ls = [ "🔍 Checking Pinecone Index...";
          "📋 Available indexes: "
            +:+ str_list world_ok (map name [ {| name := "medicalbot" |} ]);
          "✅ 'medicalbot' index exists!";
          "🎉 Your Pinecone setup is ready!" ]) ∧
  ("medicalbot" ∉ map name [ {| name := "medicalbot" |} ] →
   ls = [ "🔍 Checking Pinecone Index...";
          "📋 Available indexes: "
            +:+ str_list world_ok (map name [ {| name := "medicalbot" |} ]);
          "⚠️  'medicalbot' index not found.";
          "📝 Run: python store_index.py to create it" ]).
Proof.
  assert (H : lists_indexes world_ok env_ok [ {| name := "medicalbot" |} ]).
  { repeat split.
    exists env_ok, {| api_key := Some "pc-key" |}.
    repeat split; vm_compute; reflexivity. }
  split; [exact H|].
  exact (check_pinecone_reports_index world_ok env_ok _ H).
Defined.

(** C9. In [check_pinecone.py] a missing index is not a failure: when
    [list_indexes] returns and ["medicalbot"] is not among the names, the
    script prints the not-found warning and the guidance, no failure line,
    and ends with exit status 0.  And in every run the script's calls are an
    initial part of: three imports, [load_dotenv], one read of the key,
    the client constructor and [list_indexes]; it asks the vector service
    for nothing but the list of indexes. *)
Theorem check_pinecone_absent_index_not_failure
  (w : World) (env : gmap string string) :
  let r := run_script (check_pinecone w) env in
  (∀ idxs, lists_indexes w env idxs → "medicalbot" ∉ map name idxs →
     exit_status (outcome r) = 0 ∧
     failure_lines (trace r) = 0%nat ∧
     ∃ pre, lines (trace r) =
            (pre ++ [ "⚠️  'medicalbot' index not found.";
                      "📝 Run: python store_index.py to create it" ])%list) ∧
  actions (trace r) `prefix_of`
    [ Import "dotenv"; Import "pinecone"; Import "os"; LoadDotenv;
      EnvironGet "PINECONE_API_KEY";
      PineconeInit (dotenv_environ w env !! "PINECONE_API_KEY");
      ListIndexes ].
Proof.
  cbv zeta. split.
  - intros idxs H Hnot.
    destruct (check_pinecone_listed w env idxs H) as [Ho Hl].
    unfold failure_lines. rewrite Ho, Hl.
    rewrite bool_decide_eq_false_2 by done.
    split; [done|]. split; [done|].
    by exists [ "🔍 Checking Pinecone Index...";
                "📋 Available indexes: " +:+ str_list w (map name idxs) ].
  - unfold run_script, check_pinecone, dotenv_environ, init_store.
    unfold try_except, call, print, exit, environ_get, do_load_dotenv,
      mbind, M_bind, mret, M_ret, prepend.
    repeat (cbn -[pretty String.append str_list classify lookup truthy
                  bool_decide];
            match goal with
            | |- context [match ?x with Returns _ => _ | Raises _ => _ end] =>
                destruct x
            | |- context [if ?b then _ else _] => destruct b
            end).
    all: cbn -[lookup]; eexists; reflexivity.
Qed.

(** A run in which the service lists one index, not named [medicalbot]. *)
Lemma check_pinecone_absent_index_not_failure_witness :
  lists_indexes world_no_index env_ok [ {| name := "quickstart" |} ] ∧
  ("medicalbot" ∉ map name [ {| name := "quickstart" |} ]) ∧
  let r := run_script (check_pinecone world_no_index) env_ok in
  exit_status (outcome r) = 0 ∧
  failure_lines (trace r) = 0%nat ∧
  ∃ pre, lines (trace r) =
         (pre ++ [ "⚠️  'medicalbot' index not found.";
                   "📝 Run: python store_index.py to create it" ])%list.
Proof.
  assert (H : lists_indexes world_no_index env_ok [ {| name := "quickstart" |} ]).
  { repeat split.
    exists env_ok, {| api_key := Some "pc-key" |}.
    repeat split; vm_compute; reflexivity. }
  assert (Hn : "medicalbot" ∉ map name [ {| name := "quickstart" |} ]).
  { simpl. intros Hel. apply list_elem_of_singleton in Hel. discriminate. }
  split; [exact H|]. split; [exact Hn|].
  exact (proj1 (check_pinecone_absent_index_not_failure world_no_index env_ok)
               _ H Hn).
Defined.

(** C1, at the failing input.  When [list_indexes] raises in
    [check_pinecone.py], the handler prints the error line and the module
    body ends: the exit status is 0, although a failure line was printed.
    In the same world [test_setup.py] fails in its sixth block and exits
    with status 1. *)
Theorem check_pinecone_list_error_status :
  let r := run_script (check_pinecone world_list_error) env_ok in
  exit_status (outcome r) = 0 ∧
  lines (trace r) = [ "🔍 Checking Pinecone Index...";
                      "❌ Error: connection refused" ] ∧
  failure_lines (trace r) = 1%nat ∧
  let r' := run_script (test_setup world_list_error) env_ok in
  failing_check world_list_error env_ok = Some 6%nat ∧
  exit_status (outcome r') = 1 ∧
  last (lines (trace r'))
    = Some "   ❌ Pinecone connection error: connection refused".
Proof. vm_compute. done. Qed.

(** ** The environment-variable checks *)

Lemma test_1_passes (w : World) (s : Store) :
  imports_succeed w test_setup_modules →
  test_1 w s =
  mkRes (Ret ()) s
        [ Print "1. Testing imports...";
          Act (Import "src.helper"); Act (Import "pinecone");
          Act (Import "langchain_google_genai"); Act (Import "dotenv");
          Act (Import "os");
          Print "   ✅ All imports successful!" ].
Proof.
  unfold imports_succeed, test_setup_modules. rewrite !Forall_cons.
  intros (H1 & H2 & H3 & H4 & H5 & _).
  unfold test_1. by run_path.
Qed.

Lemma test_2_falsy (w : World) (s : Store) (env' : gmap string string) :
  load_dotenv w (environ s) = Returns env' →
  truthy (env' !! "PINECONE_API_KEY") && truthy (env' !! "GOOGLE_API_KEY")
  = false →
  test_2 w s =
  mkRes (Exit 1)
        {| environ := env';
           PINECONE_API_KEY := Some (env' !! "PINECONE_API_KEY");
           GOOGLE_API_KEY := Some (env' !! "GOOGLE_API_KEY");
           extracted_data := extracted_data s |}
        [ Print "2. Testing environment variables...";
          Act LoadDotenv; Act (EnvironGet "PINECONE_API_KEY");
          Act (EnvironGet "GOOGLE_API_KEY");
          Print "   ❌ API keys not found in .env file" ].
Proof.
  intros Hd Hk. unfold test_2.
  unfold try_except, call, print, exit, environ_get, do_load_dotenv,
    assign_PINECONE_API_KEY, assign_GOOGLE_API_KEY, mbind, M_bind, mret,
    M_ret, prepend.
  cbn -[lookup truthy andb]. rewrite Hd.
  cbn -[lookup truthy andb]. rewrite Hk. reflexivity.
Qed.

(** With a key that is not truthy, [test_setup.py] stops in its second
    block, before any call of the later blocks. *)
Lemma test_setup_falsy_keys
  (w : World) (env env' : gmap string string) :
  imports_succeed w test_setup_modules →
  load_dotenv w env = Returns env' →
  truthy (env' !! "PINECONE_API_KEY") && truthy (env' !! "GOOGLE_API_KEY")
  = false →
  let r := run_script (test_setup w) env in
  failing_check w env = Some 2%nat ∧
  outcome r = Exit 1 ∧
  lines (trace r) =
    [ "🔍 Testing Medical Chatbot Setup..."; str_mul "=" 50;
      "1. Testing imports..."; "   ✅ All imports successful!";
      "2. Testing environment variables...";
      "   ❌ API keys not found in .env file" ] ∧
  actions (trace r) =
    [ Import "src.helper"; Import "pinecone";
      Import "langchain_google_genai"; Import "dotenv"; Import "os";
      LoadDotenv; EnvironGet "PINECONE_API_KEY";
      EnvironGet "GOOGLE_API_KEY" ].
Proof.
  intros Hi Hd Hk. cbv zeta. unfold run_script, failing_check.
  pose proof (test_1_passes w (init_store env) Hi) as H1.
  pose proof (test_2_falsy w (init_store env) env' Hd Hk) as H2.
  split.
  { unfold checks. cbn [first_failure]. rewrite H1. cbn [outcome store].
    by rewrite H2. }
  rewrite test_setup_run. cbv zeta. unfold checks.
  rewrite (run_checks_passed _ _ _ _ _ H1).
  rewrite (run_checks_stopped _ _ _ _ _ _ H2).
  done.
Qed.

(** With a key that is not truthy, [check_pinecone.py] stops at its key
    test with [exit(1)]. *)
Lemma check_pinecone_falsy_key
  (w : World) (env env' : gmap string string) :
  imports_succeed w check_pinecone_modules →
  load_dotenv w env = Returns env' →
  truthy (env' !! "PINECONE_API_KEY") = false →
  let r := run_script (check_pinecone w) env in
  outcome r = Exit 1 ∧
  lines (trace r) =
    [ "🔍 Checking Pinecone Index...";
      "❌ PINECONE_API_KEY not found in .env file" ] ∧
  actions (trace r) =
    [ Import "dotenv"; Import "pinecone"; Import "os"; LoadDotenv;
      EnvironGet "PINECONE_API_KEY" ].
Proof.
  unfold imports_succeed, check_pinecone_modules. rewrite !Forall_cons.
  intros (H1 & H2 & H3 & _) Hd Hk. cbv zeta.
  unfold run_script, check_pinecone, init_store. by run_path.
Qed.

Lemma imports_succeed_world_ok (ms : list string) :
  imports_succeed world_ok ms.
Proof. unfold imports_succeed. by apply Forall_forall. Defined.

(** C10. A key that is set to the empty string is treated as an absent
    one: whenever the value read is not truthy ([None] or [""]), the
    environment-variable check prints the key-not-found line and the run
    ends with exit status 1, in [test_setup.py] for either key and in
    [check_pinecone.py] for the Pinecone key. *)
Theorem falsy_key_fails_like_absent_key
  (w : World) (env env' : gmap string string) :
  load_dotenv w env = Returns env' →
  truthy None = false ∧ truthy (Some "") = false ∧
  (imports_succeed w test_setup_modules →
   truthy (env' !! "PINECONE_API_KEY") && truthy (env' !! "GOOGLE_API_KEY")
   = false →
   let r := run_script (test_setup w) env in
   failing_check w env = Some 2%nat ∧
   exit_status (outcome r) = 1 ∧
   lines (trace r) =
     [ "🔍 Testing Medical Chatbot Setup..."; str_mul "=" 50;
       "1. Testing imports..."; "   ✅ All imports successful!";
       "2. Testing environment variables...";
       "   ❌ API keys not found in .env file" ]) ∧
  (imports_succeed w check_pinecone_modules →
   truthy (env' !! "PINECONE_API_KEY") = false →
   let r := run_script (check_pinecone w) env in
   exit_status (outcome r) = 1 ∧
   lines (trace r) =
     [ "🔍 Checking Pinecone Index...";
       "❌ PINECONE_API_KEY not found in .env file" ]).
Proof.
  intros Hd. split; [done|]. split; [done|]. split.
  - intros Hi Hf. cbv zeta.
    destruct (test_setup_falsy_keys w env env' Hi Hd Hf)
      as (Hc & Ho & Hl & _).
    by rewrite Ho, Hl.
  - intros Hi Hf. cbv zeta.
    destruct (check_pinecone_falsy_key w env env' Hi Hd Hf) as (Ho & Hl & _).
    by rewrite Ho, Hl.
Qed.

(** Runs of both scripts with [PINECONE_API_KEY] set to the empty string. *)
Lemma falsy_key_fails_like_absent_key_witness :
  load_dotenv world_ok env_empty_pinecone = Returns env_empty_pinecone ∧
  env_empty_pinecone !! "PINECONE_API_KEY" = Some "" ∧
  truthy (env_empty_pinecone !! "PINECONE_API_KEY") = false ∧
  (let r := run_script (check_pinecone world_ok) env_empty_pinecone in
   exit_status (outcome r) = 1 ∧
   lines (trace r) =
     [ "🔍 Checking Pinecone Index...";
       "❌ PINECONE_API_KEY not found in .env file" ]) ∧
  (let r := run_script (test_setup world_ok) env_empty_pinecone in
   failing_check world_ok env_empty_pinecone = Some 2%nat ∧
   exit_status (outcome r) = 1 ∧
   lines (trace r) =
     [ "🔍 Testing Medical Chatbot Setup..."; str_mul "=" 50;
       "1. Testing imports..."; "   ✅ All imports successful!";
       "2. Testing environment variables...";
       "   ❌ API keys not found in .env file" ]).
Proof.
  assert (Hk : truthy (env_empty_pinecone !! "PINECONE_API_KEY") = false).
  { vm_compute. reflexivity. }
  assert (Hb : truthy (env_empty_pinecone !! "PINECONE_API_KEY")
               && truthy (env_empty_pinecone !! "GOOGLE_API_KEY") = false).
  { vm_compute. reflexivity. }
  split; [reflexivity|]. split; [vm_compute; reflexivity|].
  split; [exact Hk|].
  pose proof (falsy_key_fails_like_absent_key
                world_ok env_empty_pinecone env_empty_pinecone eq_refl)
    as (_ & _ & Hts & Hcp).
  split.
  - exact (Hcp (imports_succeed_world_ok _) Hk).
  - exact (Hts (imports_succeed_world_ok _) Hb).
Defined.

(** ** The lines of one block *)

Ltac shape_cases :=
  run_block; unfold block_shape;
  do 4 eexists; (split; [reflexivity|]); (split; [reflexivity|]);
  (split; [|reflexivity]);
  first [left; reflexivity | right; reflexivity].

Lemma checks_shape (w : World) (i : nat) (c : M unit) (s : Store) :
  checks w !! i = Some c → block_shape (1 + i) (trace (c s)).
Proof.
  unfold checks. intros H.
  do 7 (destruct i as [|i];
        [injection H as <-;
         unfold test_1, test_2, test_3, test_4, test_5, test_6, test_7;
         shape_cases
        |simpl in H]).
  discriminate.
Qed.

Lemma traces_of_lookup
  (P : nat → list Event → Prop) (cs : list (M unit)) (k0 : nat) (s : Store) :
  (∀ i c s', cs !! i = Some c → P (k0 + i)%nat (trace (c s'))) →
  ∀ i t, traces_of cs s !! i = Some t → P (k0 + i)%nat t.
Proof.
  revert k0 s. induction cs as [|c cs' IH]; intros k0 s Hcs i t Hi; [done|].
  simpl in Hi. destruct i as [|i].
  - injection Hi as <-. by apply (Hcs 0%nat).
  - simpl in Hi.
    replace (k0 + S i)%nat with (S k0 + i)%nat by lia.
    destruct (outcome (c s)); [|done..].
    apply (IH (S k0) (store (c s))); [|done].
    intros j c' s' Hj. replace (S k0 + j)%nat with (k0 + S j)%nat by lia.
    by apply Hcs.
Qed.

(** What [split_check] returns is the trace itself, cut in three. *)
Lemma leading_actions_sound (t rest : list Event) (acts : list Action) :
  leading_actions t = (acts, rest) → t = (map Act acts ++ rest)%list.
Proof.
  revert acts rest. induction t as [|[l|a] t IH]; intros acts rest; simpl.
  - by intros [= <- <-].
  - by intros [= <- <-].
  - destruct (leading_actions t) as [acts' rest'] eqn:E.
    intros [= <- <-]. simpl. by rewrite (IH acts' rest' eq_refl).
Qed.

Lemma all_lines_sound (t : list Event) (ls : list string) :
  all_lines t = Some ls → t = map Print ls.
Proof.
  revert ls. induction t as [|[l|a] t IH]; intros ls; simpl.
  - by intros [= <-].
  - destruct (all_lines t) as [ls'|]; [|done].
    intros [= <-]. simpl. by rewrite (IH ls' eq_refl).
  - done.
Qed.

Lemma split_check_sound (t : list Event) b acts posts :
  split_check t = Some (b, acts, posts) →
  t = (Print b :: map Act acts ++ map Print posts)%list.
Proof.
  destruct t as [|[l|a] t]; simpl; [done| |done].
  destruct (leading_actions t) as [acts' rest] eqn:E.
  destruct (all_lines rest) as [ls|] eqn:El; [|done].
  intros [= <- <- <-].
  by rewrite (leading_actions_sound _ _ _ E), (all_lines_sound _ _ El).
Qed.

(** C7, as worded, fails in the Gemini block: on success it prints two
    lines after its calls. *)
Lemma gemini_block_prints_two_lines :
  ¬ one_line_each_as_worded world_ok env_ok.
Proof.
  unfold one_line_each_as_worded. rewrite Forall_lookup. intros H.
  specialize (H 6%nat _ eq_refl). vm_compute in H. discriminate.
Qed.

(** ** The process environment *)

Lemma env_writes_app (t1 t2 : list Event) :
  env_writes (t1 ++ t2) = (env_writes t1 ++ env_writes t2)%list.
Proof. unfold env_writes. by rewrite actions_app, omap_app. Qed.

Lemma block_pre_kept (w : World) (env : gmap string string) k s :
  block_pre w env k s → environ_kept w env s.
Proof.
  unfold block_pre, environ_kept.
  destruct k as [|[|[|k]]]; [by left..|]. intros [H _]. by right.
Qed.

(** Symbolic execution of a block that keeps the equations of the cases. *)
Ltac run_block_eq :=
  unfold try_except, call, print, exit, use, environ_get, environ_set,
    do_load_dotenv, current_environ, assign_PINECONE_API_KEY,
    assign_GOOGLE_API_KEY, assign_extracted_data, mbind, M_bind, mret, M_ret,
    prepend;
  repeat (cbn -[pretty String.append str_list classify lookup insert truthy
                andb bool_decide];
          match goal with
          | H : ?x = _
            |- context [match ?x with Some _ => _ | None => _ end] =>
              rewrite H
          | |- context [match ?x with Returns _ => _ | Raises _ => _ end] =>
              destruct x eqn:?
          | |- context [match ?x with Some _ => _ | None => _ end] =>
              destruct x eqn:?
          | |- context [if ?b then _ else _] => destruct b eqn:?
          end);
  cbn -[pretty String.append str_list classify lookup insert truthy andb
        bool_decide].

Section Frame.
Context (w : World) (env : gmap string string).

Lemma test_1_frame : frame_spec w env 1 (test_1 w).
Proof.
  intros s Hs. unfold block_pre in *. cbv zeta. unfold test_1.
  run_block_eq; (split; [done|]); (split; [by left|]);
    (split; [by left|done]).
Qed.

Lemma test_2_frame : frame_spec w env 2 (test_2 w).
Proof.
  intros s Hs. unfold block_pre in *. cbv zeta. unfold test_2.
  run_block_eq.
  all: unfold environ_kept, dotenv_environ; cbn -[lookup].
  all: (split; [|split; [|split; [by left|done]]]).
  all: try done.
  all: rewrite <- ?Hs; try (by left).
  all: match goal with H : load_dotenv _ _ = _ |- _ => rewrite H end.
  all: try (by right). all: try (by left).
  all: by intros _.
Qed.

Lemma test_3_frame : frame_spec w env 3 (test_3 w).
Proof.
  intros s [Hs Hg]. cbv zeta. unfold test_3.
  run_block_eq; (split; [done|]); (split; [by right|]);
    (split; [by left|done]).
Qed.

Lemma test_4_frame : frame_spec w env 4 (test_4 w).
Proof.
  intros s [Hs Hg]. cbv zeta. unfold test_4.
  run_block_eq; (split; [done|]); (split; [by right|]);
    (split; [by left|done]).
Qed.

Lemma test_5_frame : frame_spec w env 5 (test_5 w).
Proof.
  intros s [Hs Hg]. cbv zeta. unfold test_5.
  run_block_eq; (split; [done|]); (split; [by right|]);
    (split; [by left|done]).
Qed.

Lemma test_6_frame : frame_spec w env 6 (test_6 w).
Proof.
  intros s [Hs Hg]. cbv zeta. unfold test_6.
  run_block_eq; (split; [done|]); (split; [by right|]);
    (split; [by left|done]).
Qed.

(** The assignment in block 7 stores under [GOOGLE_API_KEY] the value the
    environment already holds there: the environment is left as it was. *)
Lemma test_7_frame : frame_spec w env 7 (test_7 w).
Proof.
  intros s [Hs Hg]. cbv zeta. unfold test_7.
  run_block_eq.
  all: unfold environ_kept, writes_kept, env_writes; cbn -[lookup insert].
  all: try match goal with
           | H : environ _ !! "GOOGLE_API_KEY" = Some _ |- _ =>
               rewrite (insert_id _ _ _ H)
           end.
  all: (split; [intros Ho; first [discriminate Ho | split; congruence]|]).
  all: (split; [by right|]); (split; [|done]).
  all: first [by left | right; eexists; split; [done|]; by rewrite <- Hs].
Qed.

Lemma checks_frame (i : nat) (c : M unit) :
  checks w !! i = Some c → frame_spec w env (1 + i) c.
Proof.
  unfold checks. intros H.
  do 7 (destruct i as [|i];
        [injection H as <-;
         first [apply test_1_frame | apply test_2_frame | apply test_3_frame
               | apply test_4_frame | apply test_5_frame | apply test_6_frame
               | apply test_7_frame]
        |simpl in H]).
  discriminate.
Qed.

(** Blocks that each keep the environment keep it when run in sequence. *)
Lemma run_checks_frame (cs : list (M unit)) (k0 : nat) (s : Store) :
  (∀ i c, cs !! i = Some c → frame_spec w env (k0 + i) c) →
  block_pre w env k0 s →
  let r := run_checks cs s in
  environ_kept w env (store r) ∧ writes_kept w env (trace r) ∧
  ((7 < k0)%nat → env_writes (trace r) = []).
Proof.
  revert k0 s. induction cs as [|c cs' IH]; intros k0 s Hcs Hs.
  { simpl. split; [by eapply block_pre_kept|]. split; [by left|done]. }
  cbv zeta. rewrite run_checks_cons.
  pose proof (Hcs 0%nat c eq_refl) as Hc. rewrite Nat.add_0_r in Hc.
  destruct (Hc s Hs) as (Hnext & Hkept & Hw & Hw0).
  destruct (outcome (c s)) as [[]| |] eqn:Ho;
    [|cbn [outcome store trace];
      split; [done|]; split; [done|]; intros ?; apply Hw0; lia..].
  assert (Hcs' : ∀ i c', cs' !! i = Some c' →
                         frame_spec w env (S k0 + i) c').
  { intros i c' Hi. replace (S k0 + i)%nat with (k0 + S i)%nat by lia.
    by apply Hcs. }
  destruct (IH (S k0) (store (c s)) Hcs' (Hnext eq_refl)) as (Hk' & Hw' & Hw8).
  cbv zeta. cbn [outcome store trace]. split; [done|].
  unfold writes_kept in *. rewrite env_writes_app.
  destruct (decide (k0 = 7%nat)) as [->|Hne].
  - rewrite Hw8 by lia. rewrite app_nil_r. split; [done|lia].
  - rewrite (Hw0 Hne). split; [done|]. intros ?. apply Hw8. lia.
Qed.

End Frame.

Lemma env_writes_header (l1 l2 : string) (t : list Event) :
  env_writes (Print l1 :: Print l2 :: t) = env_writes t.
Proof. reflexivity. Qed.

Lemma env_writes_next_steps (s : Store) :
  env_writes (trace (next_steps s)) = [].
Proof. reflexivity. Qed.

Lemma env_write_check (a : Action) (kv : string * string) :
  env_write a = Some kv → check_of a = 7%nat.
Proof. by destruct a. Qed.

(** C8, as worded, fails on a successful run: the Gemini block assigns to
    [os.environ]. *)
Lemma gemini_block_writes_environ :
  ¬ no_environ_write_as_worded world_ok env_ok.
Proof.
  unfold no_environ_write_as_worded. vm_compute. discriminate.
Qed.

(** ** Further properties of check_pinecone.py *)

Ltac normalise_cases :=
  repeat match goal with
         | H : negb _ = true |- _ => apply negb_true_iff in H
         | H : negb _ = false |- _ => apply negb_false_iff in H
         | u : () |- _ => destruct u
         end.

Ltac after_dotenv :=
  unfold dotenv_environ;
  repeat match goal with
         | H : load_dotenv _ _ = _ |- _ => rewrite H
         end;
  cbv beta iota.

(** X1. A run of [check_pinecone.py] in which the prints succeed, and in
    which what a package call raises is an [Exception], ends in one of
    three ways.  The key test fails: two lines, exit status 1.  A package
    call raises: the header and one error line carrying the text of the
    exception, exit status 0.  Or [list_indexes] returns: the header, the
    list of names and the two lines about the [medicalbot] index, exit
    status 0. *)
Theorem check_pinecone_outcomes (w : World) (env : gmap string string) :
  let r := run_script (check_pinecone w) env in
  (outcome r = Exit 1 ∧
   truthy (dotenv_environ w env !! "PINECONE_API_KEY") = false ∧
   lines (trace r) = [ "🔍 Checking Pinecone Index...";
                       "❌ PINECONE_API_KEY not found in .env file" ]) ∨
  (outcome r = Ret () ∧
   ∃ e, check_pinecone_raised w env e ∧
        lines (trace r) = [ "🔍 Checking Pinecone Index...";
                            "❌ Error: " +:+ e ]) ∨
  (outcome r = Ret () ∧
   ∃ idxs, lists_indexes w env idxs ∧
           lines (trace r) =
             "🔍 Checking Pinecone Index..."
             :: ("📋 Available indexes: " +:+ str_list w (map name idxs))
             :: (if bool_decide ("medicalbot" ∈ map name idxs)
                 then [ "✅ 'medicalbot' index exists!";
                        "🎉 Your Pinecone setup is ready!" ]
                 else [ "⚠️  'medicalbot' index not found.";
                        "📝 Run: python store_index.py to create it" ])).
Proof.
  cbv zeta. unfold run_script, check_pinecone, init_store.
  run_block_eq; normalise_cases.
  all: first
    [ left; split; [done|]; split; [by after_dotenv|done]
    | right; left; split; [done|]; eexists; split; cycle 1;
      [reflexivity|];
      unfold check_pinecone_raised, check_pinecone_modules;
      first [ left; eexists; split; [|eassumption]; set_solver
            | right; left; eassumption
            | right; right; left; by after_dotenv
            | right; right; right; eexists; by after_dotenv ]
    | right; right; split; [done|]; eexists; split;
      [ unfold lists_indexes; repeat (split; [eassumption|]);
        do 2 eexists; repeat (split; [eassumption|]); eassumption
      | match goal with H : bool_decide _ = _ |- _ => by rewrite H end ] ].
Qed.
(** ** What the lines of a block report *)

Ltac in_list :=
  repeat first [apply list_elem_of_here | apply list_elem_of_further].

Ltac not_in_list H :=
  repeat (apply elem_of_cons in H as [H|H];
          [try (cbn [String.append] in H; discriminate H)|]);
  try (by apply elem_of_nil in H).

(** The parts of [block_post] on an executed block: [failed] proves the
    failure report, [passed] the success report, [key] the property of the
    key given to the client, [calls] prepares the list of calls, [kept]
    proves what the globals hold. *)
Ltac post_cases failed passed key calls kept :=
  unfold block_post; cbn [outcome store trace lines actions];
  split; [|split; [|split; [|split; [|split; [|split]]]]];
  [ intros Hne;
    first [by destruct Hne
          | eexists [_], _; split; [reflexivity|]; failed]
  | intros Ho; first [discriminate Ho | passed]
  | intros k Hk; first [by not_in_list Hk | key k Hk]
  | intros Hb; by not_in_list Hb
  | intros Ho; first [discriminate Ho | calls; reflexivity]
  | calls; eexists; reflexivity
  | kept ].

Ltac report_raised raised :=
  right; eexists; split; cycle 1; [reflexivity|raised].

Ltac kept_as_before H :=
  unfold globals_kept in *;
  cbn [environ PINECONE_API_KEY GOOGLE_API_KEY extracted_data];
  exact H.

Ltac next_pre kept rest :=
  first [done | intros _; split; [kept|rest]].

Section Reports.
Context (w : World) (env : gmap string string).

Lemma test_1_spec : block_spec w env 1 (test_1 w).
Proof.
  intros s [Hkept Hs]. unfold test_1.
  run_block_eq; normalise_cases.
  all: split; [|next_pre ltac:(kept_as_before Hkept) ltac:(exact Hs)].
  all: post_cases
         ltac:(report_raised
                 ltac:(eexists; split; [|eassumption];
                       unfold test_setup_modules; in_list))
         ltac:(unfold imports_succeed, test_setup_modules;
               by repeat (apply Forall_cons; split; [done|]))
         ltac:(fun k Hk => fail)
         ltac:(idtac)
         ltac:(kept_as_before Hkept).
Qed.

Lemma test_2_spec : block_spec w env 2 (test_2 w).
Proof.
  intros s [Hkept Hs]. unfold test_2.
  run_block_eq; normalise_cases.
  all: rewrite Hs in *.
  all: try match goal with
           | H : load_dotenv w env = Returns ?a |- _ =>
               assert (dotenv_environ w env = a) as Hda
                 by (unfold dotenv_environ; by rewrite H)
           end.
  all: try match goal with
           | H : _ && _ = true |- _ => apply andb_true_iff in H as [Htp Htg]
           end.
  all: match goal with
       | |- block_post _ _ _ ?r ∧ _ =>
           assert (globals_kept w env (store r)) as Hkept'
             by (destruct Hkept as (K1 & K2 & K3);
                 unfold globals_kept;
                 cbn [store environ PINECONE_API_KEY GOOGLE_API_KEY
                      extracted_data];
                 first [ by repeat split
                       | rewrite Hda; repeat split; auto ])
       end.
  all: split;
    [|next_pre
        ltac:(exact Hkept')
        ltac:(unfold keys_bound;
              cbn [environ PINECONE_API_KEY GOOGLE_API_KEY];
              rewrite Hda; by repeat split)].
  all: post_cases
         ltac:(first
                 [ report_raised ltac:(eassumption)
                 | left; split; [done|]; split; [by eexists|];
                   split; [by rewrite Hda|reflexivity] ])
         ltac:(split; [by eexists|]; by rewrite Hda)
         ltac:(fun k Hk => fail)
         ltac:(idtac)
         ltac:(exact Hkept').
Qed.

Lemma test_3_spec : block_spec w env 3 (test_3 w).
Proof.
  intros s [Hkept Hs]. unfold test_3.
  run_block_eq; normalise_cases.
  all: match goal with
       | |- block_post _ _ _ ?r ∧ _ =>
           assert (globals_kept w env (store r)) as Hkept'
             by (destruct Hkept as (K1 & K2 & K3);
                 unfold globals_kept;
                 cbn [store environ PINECONE_API_KEY GOOGLE_API_KEY
                      extracted_data];
                 first [ by repeat split
                       | split; [done|]; split; [done|];
                         right; eexists; split; [reflexivity|eassumption] ])
       end.
  all: split;
    [|next_pre ltac:(exact Hkept')
               ltac:(split; [exact Hs|]; by eexists)].
  all: post_cases
         ltac:(report_raised ltac:(eassumption))
         ltac:(eexists; split; [eassumption|in_list])
         ltac:(fun k Hk => fail)
         ltac:(idtac)
         ltac:(exact Hkept').
Qed.

Lemma test_4_spec : block_spec w env 4 (test_4 w).
Proof.
  intros s [Hkept [Hkeys (d & Hd & Hl)]]. unfold test_4.
  run_block_eq; normalise_cases.
  all: split;
    [|next_pre ltac:(kept_as_before Hkept)
               ltac:(split; [done|]; by eexists)].
  all: post_cases
         ltac:(report_raised ltac:(eexists; split; eassumption))
         ltac:(do 2 eexists; split; [eassumption|];
               split; [eassumption|in_list])
         ltac:(fun k Hk => fail)
         ltac:(cbn [block_calls]; unfold loaded_documents; rewrite Hl)
         ltac:(kept_as_before Hkept).
Qed.

Lemma test_5_spec : block_spec w env 5 (test_5 w).
Proof.
  intros s [Hkept Hs]. unfold test_5.
  run_block_eq; normalise_cases.
  all: split; [|next_pre ltac:(kept_as_before Hkept) ltac:(exact Hs)].
  all: post_cases
         ltac:(report_raised ltac:(eassumption))
         ltac:(by eexists)
         ltac:(fun k Hk => fail)
         ltac:(idtac)
         ltac:(kept_as_before Hkept).
Qed.

Lemma test_6_spec : block_spec w env 6 (test_6 w).
Proof.
  intros s [Hkept [Hkeys Hdocs]].
  pose proof Hkeys as (He & Hpk & Hgk & Htp & Htg).
  unfold test_6.
  run_block_eq; normalise_cases.
  all: split;
    [|next_pre ltac:(kept_as_before Hkept) ltac:(by split)].
  all: post_cases
         ltac:(report_raised
                 ltac:(first [left; eassumption
                             |right; eexists; split; eassumption]))
         ltac:(do 2 eexists; split; [eassumption|];
               split; [eassumption|in_list])
         ltac:(fun k Hk =>
                 apply elem_of_cons in Hk as [Hk|Hk];
                 [injection Hk as ->; by split|by not_in_list Hk])
         ltac:(idtac)
         ltac:(kept_as_before Hkept).
Qed.
End Reports.

(** Symbolic execution that also simplifies the assignment of a value the
    environment already holds. *)
Ltac run_block_env :=
  unfold try_except, call, print, exit, use, environ_get, environ_set,
    do_load_dotenv, current_environ, assign_PINECONE_API_KEY,
    assign_GOOGLE_API_KEY, assign_extracted_data, mbind, M_bind, mret, M_ret,
    prepend;
  repeat (cbn -[pretty String.append str_list classify lookup insert truthy
                andb bool_decide str_take];
          match goal with
          | H : ?m !! ?k = Some ?v |- context [<[?k:=?v]> ?m] =>
              rewrite (insert_id m k v H)
          | H : ?x = _
            |- context [match ?x with Some _ => _ | None => _ end] =>
              rewrite H
          | |- context [match ?x with Returns _ => _ | Raises _ => _ end] =>
              destruct x eqn:?
          | |- context [match ?x with Some _ => _ | None => _ end] =>
              destruct x eqn:?
          | |- context [if ?b then _ else _] => destruct b eqn:?
          end);
  cbn -[pretty String.append str_list classify lookup insert truthy andb
        bool_decide str_take].

Section Reports2.
Context (w : World) (env : gmap string string).

Lemma test_7_spec : block_spec w env 7 (test_7 w).
Proof.
  intros s [Hkept [Hkeys Hdocs]].
  pose proof Hkeys as (He & Hpk & Hgk & Htp & Htg).
  unfold test_7. rewrite <- He in *.
  run_block_env; normalise_cases.
  all: try match goal with H : truthy None = true |- _ => discriminate H end.
  all: repeat match goal with
              | H : context [environ _] |- _ => rewrite He in H
              end.
  all: split;
    [|next_pre
        ltac:(kept_as_before Hkept)
        ltac:(split;
              [unfold keys_bound;
               cbn [environ PINECONE_API_KEY GOOGLE_API_KEY];
               by repeat split
              |exact Hdocs])].
  all: post_cases
         ltac:(report_raised
                 ltac:(first [left; eassumption
                             |right; eexists; split; eassumption]))
         ltac:(do 2 eexists; split; [eassumption|];
               split; [eassumption|in_list])
         ltac:(fun k Hk => fail)
         ltac:(cbn [block_calls];
               repeat match goal with
                      | H : _ !! _ = Some _ |- _ => rewrite H
                      end)
         ltac:(kept_as_before Hkept).
Qed.

Lemma checks_spec (i : nat) (c : M unit) :
  checks w !! i = Some c → block_spec w env (1 + i) c.
Proof.
  unfold checks. intros H.
  do 7 (destruct i as [|i];
        [injection H as <-;
         first [apply test_1_spec | apply test_2_spec | apply test_3_spec
               | apply test_4_spec | apply test_5_spec | apply test_6_spec
               | apply test_7_spec]
        |simpl in H]).
  discriminate.
Qed.
End Reports2.

(** The output of a block, whatever the store it starts from. *)
Lemma checks_output (w : World) (i : nat) (c : M unit) (s : Store) :
  checks w !! i = Some c → block_output w (1 + i) (trace (c s)).
Proof.
  unfold checks. intros H.
  do 7 (destruct i as [|i];
        [injection H as <-;
         unfold test_1, test_2, test_3, test_4, test_5, test_6, test_7;
         run_block_eq; unfold block_output;
         do 4 eexists; (split; [reflexivity|]); (split; [reflexivity|]);
         first [ left; split; [reflexivity|];
                 first [ reflexivity
                       | do 2 eexists; split; [eassumption|reflexivity] ]
               | right; split; reflexivity ]
        |simpl in H]).
  discriminate.
Qed.
(** ** Blocks in sequence, with what holds between them *)

Lemma elem_of_lines (l : string) (t : list Event) :
  l ∈ lines t ↔ Print l ∈ t.
Proof.
  induction t as [|[l'|a] t IH]; simpl.
  - by rewrite !elem_of_nil.
  - rewrite !elem_of_cons, IH. split; intros [H|H]; auto; left; congruence.
  - rewrite elem_of_cons, IH. split; [auto|]. by intros [H|H].
Qed.

Lemma elem_of_actions (a : Action) (t : list Event) :
  a ∈ actions t ↔ Act a ∈ t.
Proof.
  induction t as [|[l'|a'] t IH]; simpl.
  - by rewrite !elem_of_nil.
  - rewrite elem_of_cons, IH. split; [auto|]. by intros [H|H].
  - rewrite !elem_of_cons, IH. split; intros [H|H]; auto; left; congruence.
Qed.

Lemma first_failure_ge (cs : list (M unit)) (k0 k : nat) (s : Store) :
  first_failure cs k0 s = Some k → (k0 ≤ k)%nat.
Proof.
  revert k0 s. induction cs as [|c cs' IH]; intros k0 s; simpl; [done|].
  destruct (outcome (c s)).
  - intros H. apply IH in H. lia.
  - intros [= <-]. lia.
  - intros [= <-]. lia.
Qed.

(** A property that each block establishes for the next holds of every
    block that runs. *)
Lemma runs_of_inv
  (Pre : nat → Store → Prop) (Post : nat → Res unit → Prop)
  (cs : list (M unit)) (k0 : nat) (s : Store) :
  (∀ i c s', cs !! i = Some c → Pre (k0 + i)%nat s' →
             Post (k0 + i)%nat (c s') ∧
             (outcome (c s') = Ret () → Pre (S (k0 + i)) (store (c s')))) →
  Pre k0 s →
  ∀ i r, runs_of cs s !! i = Some r → Post (k0 + i)%nat r.
Proof.
  revert k0 s. induction cs as [|c cs' IH]; intros k0 s Hcs Hs i r Hi;
    [done|].
  destruct (Hcs 0%nat c s eq_refl) as [Hpost Hnext];
    [by rewrite Nat.add_0_r|].
  rewrite Nat.add_0_r in Hpost, Hnext.
  simpl in Hi. destruct i as [|i].
  - injection Hi as <-. by rewrite Nat.add_0_r.
  - simpl in Hi. destruct (outcome (c s)) as [[]| |]; [|done..].
    replace (k0 + S i)%nat with (S k0 + i)%nat by lia.
    apply (IH (S k0) (store (c s))); [|by apply Hnext|done].
    intros j c' s' Hj. replace (S k0 + j)%nat with (k0 + S j)%nat by lia.
    by apply Hcs.
Qed.

(** The events of a run are the events of the blocks that ran. *)
Lemma runs_of_event (cs : list (M unit)) (s : Store) (e : Event) :
  e ∈ trace (run_checks cs s) ↔
  ∃ i r, runs_of cs s !! i = Some r ∧ e ∈ trace r.
Proof.
  revert s. induction cs as [|c cs' IH]; intros s.
  { simpl. rewrite elem_of_nil. split; [done|]. by intros (i & r & H & _). }
  rewrite run_checks_cons. simpl runs_of.
  destruct (outcome (c s)) as [[]| |]; cbn [trace].
  - rewrite elem_of_app, IH. split.
    + intros [H|(i & r & Hi & He)].
      * by exists 0%nat, (c s).
      * by exists (S i), r.
    + intros ([|i] & r & Hi & He).
      * injection Hi as <-. by left.
      * right. by exists i, r.
  - split.
    + intros H. by exists 0%nat, (c s).
    + intros ([|i] & r & Hi & He); [by injection Hi as <-|done].
  - split.
    + intros H. by exists 0%nat, (c s).
    + intros ([|i] & r & Hi & He); [by injection Hi as <-|done].
Qed.

(** The block that fails is the last one that ran. *)
Lemma runs_of_failed (cs : list (M unit)) (k0 k : nat) (s : Store) :
  first_failure cs k0 s = Some k →
  ∃ r, runs_of cs s !! (k - k0)%nat = Some r ∧ outcome r ≠ Ret ().
Proof.
  revert k0 s. induction cs as [|c cs' IH]; intros k0 s; simpl; [done|].
  destruct (outcome (c s)) as [[]| |] eqn:Ho.
  - intros H. pose proof (first_failure_ge _ _ _ _ H) as Hge.
    destruct (IH _ _ H) as (r & Hr & Hne).
    exists r. split; [|done].
    by replace (k - k0)%nat with (S (k - S k0)) by lia.
  - intros [= <-]. rewrite Nat.sub_diag. exists (c s). by rewrite Ho.
  - intros [= <-]. rewrite Nat.sub_diag. exists (c s). by rewrite Ho.
Qed.

(** The blocks before the one that fails ran to their end. *)
Lemma runs_of_passed (cs : list (M unit)) (k0 i : nat) (s : Store) :
  (i < length cs)%nat →
  (∀ k, first_failure cs k0 s = Some k → (k0 + i < k)%nat) →
  ∃ r, runs_of cs s !! i = Some r ∧ outcome r = Ret ().
Proof.
  revert k0 i s. induction cs as [|c cs' IH]; intros k0 i s Hi Hk;
    [simpl in Hi; lia|].
  simpl in Hk. destruct (outcome (c s)) as [[]| |] eqn:Ho.
  - destruct i as [|i]; [by exists (c s)|].
    simpl. rewrite Ho. apply (IH (S k0)); [simpl in Hi; lia|].
    intros k H. specialize (Hk k H). lia.
  - specialize (Hk k0 eq_refl). lia.
  - specialize (Hk k0 eq_refl). lia.
Qed.

(** The calls of a run are an initial part of the calls of its blocks. *)
Lemma run_checks_calls
  (calls : nat → list Action) (cs : list (M unit)) (k0 : nat) (s : Store) :
  (∀ i r, runs_of cs s !! i = Some r →
          (outcome r = Ret () → actions (trace r) = calls (k0 + i)%nat) ∧
          actions (trace r) `prefix_of` calls (k0 + i)%nat) →
  actions (trace (run_checks cs s))
  `prefix_of` flat_map calls (seq k0 (length cs)).
Proof.
  revert k0 s. induction cs as [|c cs' IH]; intros k0 s Hcs.
  { simpl. apply prefix_nil. }
  destruct (Hcs 0%nat (c s) eq_refl) as [Hfull Hpre].
  rewrite Nat.add_0_r in Hfull, Hpre.
  rewrite run_checks_cons. simpl flat_map.
  destruct (outcome (c s)) as [[]| |] eqn:Ho; cbn [trace].
  - rewrite actions_app, (Hfull eq_refl). apply prefix_app.
    apply IH. intros i r Hi.
    replace (S k0 + i)%nat with (k0 + S i)%nat by lia.
    apply Hcs. simpl. by rewrite Ho.
  - by apply prefix_app_r.
  - by apply prefix_app_r.
Qed.
(** When every block runs to its end, the calls of the run are the calls
    of its blocks. *)
Lemma run_checks_calls_all
  (calls : nat → list Action) (cs : list (M unit)) (k0 : nat) (s : Store) :
  (∀ i r, runs_of cs s !! i = Some r → outcome r = Ret () →
          actions (trace r) = calls (k0 + i)%nat) →
  first_failure cs k0 s = None →
  actions (trace (run_checks cs s)) = flat_map calls (seq k0 (length cs)).
Proof.
  revert k0 s. induction cs as [|c cs' IH]; intros k0 s Hcs Hnone; [done|].
  pose proof (Hcs 0%nat (c s) eq_refl) as Hfull.
  rewrite Nat.add_0_r in Hfull.
  rewrite run_checks_cons. simpl flat_map. simpl in Hnone.
  destruct (outcome (c s)) as [[]| |] eqn:Ho; [|done..]. cbn [trace].
  rewrite actions_app, (Hfull eq_refl). f_equal.
  apply IH; [|done]. intros i r Hi.
  replace (S k0 + i)%nat with (k0 + S i)%nat by lia.
  apply Hcs. simpl. by rewrite Ho.
Qed.


(** The trace of a run that stops ends with the trace of the block that
    failed, and the store is the one that block left. *)
Lemma runs_of_failed_trace (cs : list (M unit)) (k0 k : nat) (s : Store) :
  first_failure cs k0 s = Some k →
  ∃ t0 r, runs_of cs s !! (k - k0)%nat = Some r ∧ outcome r ≠ Ret () ∧
          trace (run_checks cs s) = (t0 ++ trace r)%list.
Proof.
  revert k0 s. induction cs as [|c cs' IH]; intros k0 s; simpl first_failure;
    [done|].
  rewrite run_checks_cons. simpl runs_of.
  destruct (outcome (c s)) as [[]| |] eqn:Ho.
  - intros H. pose proof (first_failure_ge _ _ _ _ H) as Hge.
    destruct (IH _ _ H) as (t0 & r & Hr & Hne & Ht).
    exists (trace (c s) ++ t0)%list, r. split; [|split; [done|]].
    + by replace (k - k0)%nat with (S (k - S k0)) by lia.
    + cbn [trace]. by rewrite Ht, app_assoc.
  - intros [= <-]. rewrite Nat.sub_diag. exists [], (c s).
    split; [done|]. split; [by rewrite Ho|done].
  - intros [= <-]. rewrite Nat.sub_diag. exists [], (c s).
    split; [done|]. split; [by rewrite Ho|done].
Qed.

(** The store a run leaves is the initial one or the one a block left. *)
Lemma runs_of_store (cs : list (M unit)) (s : Store) :
  store (run_checks cs s) = s ∨
  ∃ i r, runs_of cs s !! i = Some r ∧ store (run_checks cs s) = store r.
Proof.
  revert s. induction cs as [|c cs' IH]; intros s; [by left|].
  right. rewrite run_checks_cons. simpl runs_of.
  destruct (outcome (c s)) as [[]| |] eqn:Ho; cbn [store];
    [|by exists 0%nat, (c s)..].
  destruct (IH (store (c s))) as [Hs|(i & r & Hi & Hs)].
  - exists 0%nat, (c s). by rewrite Hs.
  - exists (S i), r. by rewrite Hs.
Qed.
(** ** Passing and failing, as facts about the world *)

Lemma test_setup_blocks
  (w : World) (env : gmap string string) (i : nat) (r : Res unit) :
  runs_of (checks w) (init_store env) !! i = Some r →
  block_post w env (1 + i) r.
Proof.
  apply (runs_of_inv (globals_pre w env) (block_post w env)
           (checks w) 1 (init_store env)).
  - intros j c s' Hj. by apply checks_spec.
  - split; [|done]. unfold globals_kept. simpl. by repeat split; left.
Qed.

Lemma success_report_mono
  (w : World) (env : gmap string string) (j : nat) (ls ls' : list string) :
  (∀ l, l ∈ ls → l ∈ ls') →
  success_report w env j ls → success_report w env j ls'.
Proof.
  intros Hsub.
  do 8 (destruct j as [|j];
        [simpl; try done;
         first [ intros (x & H1 & H2); exists x; split; [done|];
                 by apply Hsub
               | intros (x & y & H1 & H2 & H3); exists x, y;
                 split; [done|]; split; [done|]; by apply Hsub ]
        |]).
  done.
Qed.

Lemma success_report_passes
  (w : World) (env : gmap string string) (j : nat) (ls : list string) :
  success_report w env j ls → check_passes w env j.
Proof.
  do 8 (destruct j as [|j];
        [simpl; try done;
         first [ intros (x & H1 & H2); by exists x
               | intros (x & y & H1 & H2 & H3); by exists x, y ]
        |]).
  done.
Qed.

Lemma failure_report_fails
  (w : World) (env : gmap string string) (j : nat) (l : string) :
  failure_report w env j l → check_fails w env j.
Proof.
  intros [(-> & Hd & Hk & _)|(e & He & _)]; [by left|right; by exists e].
Qed.

(** A block does not both pass and fail. *)
Lemma passes_not_fails (w : World) (env : gmap string string) (j : nat) :
  check_passes w env j → check_fails w env j → False.
Proof.
  intros Hp [(-> & _ & Hk)|(e & He)].
  - destruct Hp as (_ & Htp & Htg). by rewrite Htp, Htg in Hk.
  - destruct j as [|[|[|[|[|[|[|[|j]]]]]]]]; simpl in *; try done.
    + destruct He as (m & Hm & He).
      unfold imports_succeed in Hp. rewrite Forall_forall in Hp.
      specialize (Hp m Hm). congruence.
    + destruct Hp as ((env' & Hd) & _). congruence.
    + destruct Hp as (d & Hd). congruence.
    + destruct Hp as (d & ch & Hd & Hs). destruct He as (d' & Hd' & He).
      congruence.
    + destruct Hp as (m & Hm). congruence.
    + destruct Hp as (pc & idxs & Hpc & Hl).
      destruct He as [He|(pc' & Hpc' & He)]; congruence.
    + destruct Hp as (llm & msg & Hc & Hi).
      destruct He as [He|(llm' & Hc' & He)]; congruence.
Qed.

Lemma block_line_in_run
  (w : World) (env : gmap string string) (i : nat) (r : Res unit)
  (l : string) :
  runs_of (checks w) (init_store env) !! i = Some r →
  l ∈ lines (trace r) →
  l ∈ lines (trace (run_script (test_setup w) env)).
Proof.
  intros Hi Hl. unfold run_script. rewrite test_setup_run. cbv zeta.
  assert (Hrc : l ∈ lines (trace (run_checks (checks w) (init_store env)))).
  { apply elem_of_lines, runs_of_event. exists i, r.
    split; [done|]. by apply elem_of_lines. }
  destruct (outcome (run_checks (checks w) (init_store env)));
    cbn [trace lines]; do 2 apply list_elem_of_further; [|done..].
  rewrite lines_app. apply elem_of_app. by left.
Qed.

(** The blocks before the failing one report what their calls returned. *)
Lemma passed_block_report
  (w : World) (env : gmap string string) (j : nat) :
  (1 ≤ j ≤ 7)%nat →
  (∀ k, failing_check w env = Some k → (j < k)%nat) →
  success_report w env j (lines (trace (run_script (test_setup w) env))).
Proof.
  intros Hj Hk.
  destruct (runs_of_passed (checks w) 1 (j - 1) (init_store env))
    as (r & Hr & Ho).
  { simpl. lia. }
  { intros k H. specialize (Hk k H). lia. }
  destruct (test_setup_blocks w env _ r Hr) as (_ & Hpass & _).
  replace (1 + (j - 1))%nat with j in Hpass by lia.
  eapply success_report_mono; [|exact (Hpass Ho)].
  intros l Hl. by eapply block_line_in_run.
Qed.

(** The output of a run that stops in block [k] ends with the failure line
    of block [k] and what the block prints after it. *)
Lemma failed_block_report
  (w : World) (env : gmap string string) (k : nat) :
  failing_check w env = Some k →
  (1 ≤ k ≤ 7)%nat ∧
  ∃ pre l,
    lines (trace (run_script (test_setup w) env))
    = (pre ++ l :: after_failure k)%list ∧
    failure_report w env k l.
Proof.
  intros Hf.
  destruct (test_setup_summary w env) as [_ Hs]. rewrite Hf in Hs.
  destruct Hs as (Hk & _ & Ht & _). split; [done|].
  destruct (runs_of_failed_trace (checks w) 1 k (init_store env) Hf)
    as (t0 & r & Hr & Hne & Htr).
  destruct (test_setup_blocks w env _ r Hr) as (Hfail & _).
  replace (1 + (k - 1))%nat with k in Hfail by lia.
  destruct (Hfail Hne) as (pre & l & Hl & Hrep).
  exists ("🔍 Testing Medical Chatbot Setup..." :: str_mul "=" 50
          :: lines t0 ++ pre)%list, l.
  split; [|done]. rewrite Ht, Htr. cbn [lines].
  rewrite lines_app, Hl. cbn [app]. by rewrite app_assoc.
Qed.

(** The first failing block, read off the world. *)
Lemma failing_check_cause
  (w : World) (env : gmap string string) (k : nat) :
  failing_check w env = Some k →
  (1 ≤ k ≤ 7)%nat ∧
  (∀ j, (1 ≤ j < k)%nat → check_passes w env j) ∧
  check_fails w env k.
Proof.
  intros Hf. destruct (failed_block_report w env k Hf)
    as (Hk & pre & l & _ & Hrep).
  split; [done|]. split; [|by eapply failure_report_fails].
  intros j Hj. eapply success_report_passes.
  apply passed_block_report; [lia|].
  intros k' Hf'. rewrite Hf in Hf'. injection Hf' as <-. lia.
Qed.

Lemma passing_checks (w : World) (env : gmap string string) (j : nat) :
  failing_check w env = None → (1 ≤ j ≤ 7)%nat → check_passes w env j.
Proof.
  intros Hf Hj. eapply success_report_passes.
  apply passed_block_report; [done|]. intros k Hk. congruence.
Qed.

Lemma failing_check_world
  (w : World) (env : gmap string string) (k : nat) :
  (∀ j, (1 ≤ j < k)%nat → check_passes w env j) →
  check_fails w env k →
  failing_check w env = Some k.
Proof.
  intros Hpass Hfail.
  assert (Hk : (1 ≤ k ≤ 7)%nat).
  { destruct Hfail as [(-> & _)|(e & He)]; [lia|].
    destruct k as [|[|[|[|[|[|[|[|k]]]]]]]]; simpl in He; try done; lia. }
  destruct (failing_check w env) as [k'|] eqn:Hf.
  - destruct (failing_check_cause w env k' Hf) as (Hk' & Hpass' & Hfail').
    destruct (decide (k' = k)) as [->|Hne]; [done|].
    destruct (decide (k' < k)%nat).
    + destruct (passes_not_fails w env k'); [apply Hpass; lia|done].
    + destruct (passes_not_fails w env k); [apply Hpass'; lia|done].
  - destruct (passes_not_fails w env k); [|done].
    apply passing_checks; [done|lia].
Qed.
(** ** Fail-fast and the output of a failed run *)

Lemma not_collaborator (a : Action) :
  (check_of a ≤ 2)%nat → is_collaborator a = false.
Proof. destruct a; simpl; first [done|lia]. Qed.

Lemma failure_report_kind
  (w : World) (env : gmap string string) (k : nat) (l : string) :
  (1 ≤ k ≤ 7)%nat → failure_report w env k l → classify l = Failure.
Proof.
  intros Hk [(_ & _ & _ & ->)|(e & He & ->)]; [done|].
  by destruct (failing_check_cases k Hk)
    as [->|[->|[->|[->|[->|[->| ->]]]]]].
Qed.

(** C2. When a check of [test_setup.py] fails (one of its package calls
    raises, or, in check 2, a key is missing or empty) and every earlier
    check passed, the run stops there: the process exits with status 1, no
    call written in a later check (PDF loading, chunking, embedding load,
    Pinecone connection, Gemini call) is made, and no begin line of a later
    check is printed. *)
Theorem fail_fast_no_later_check
  (w : World) (env : gmap string string) (k : nat) :
  (∀ j, (1 ≤ j < k)%nat → check_passes w env j) →
  check_fails w env k →
  let r := run_script (test_setup w) env in
  outcome r = Exit 1 ∧
  Forall (λ a, (check_of a ≤ k)%nat) (actions (trace r)) ∧
  Forall (λ kd, ∀ j, kd = Begin j → (j ≤ k)%nat) (kinds (trace r)).
Proof.
  intros Hpass Hfail. cbv zeta.
  pose proof (failing_check_world w env k Hpass Hfail) as Hk.
  destruct (test_setup_summary w env) as [Ha Hs]. rewrite Hk in Hs.
  destruct Hs as (Hb & Ho & _ & Hkinds). split; [done|]. split.
  - rewrite Ha.
    destruct (run_checks_actions (checks w) 1 (init_store env)
                (λ i c s', checks_summary w i c s')) as [Hall _].
    rewrite Forall_map in Hall.
    eapply Forall_impl; [exact Hall|]. intros a [_ Hle]. by apply Hle.
  - rewrite Hkinds.
    destruct (failing_check_cases k Hb) as [->|[->|[->|[->|[->|[->| ->]]]]]];
      match goal with
      | |- Forall _ ?l => let l' := eval vm_compute in l in change l with l'
      end;
      repeat (apply Forall_cons; split; [intros j [= <-]; lia|]);
      apply Forall_nil_2.
Qed.

Lemma checks_pass_world_no_pdf (j : nat) :
  (1 ≤ j < 3)%nat → check_passes world_no_pdf env_ok j.
Proof.
  intros Hj. assert (j = 1 ∨ j = 2)%nat as [-> | ->] by lia.
  - unfold check_passes, imports_succeed. by apply Forall_forall.
  - split; [by eexists|]. split; vm_compute; reflexivity.
Defined.

(** A run in which the PDF loader raises: check 3 is the one that fails. *)
Lemma fail_fast_no_later_check_witness :
  check_fails world_no_pdf env_ok 3 ∧
  let r := run_script (test_setup world_no_pdf) env_ok in
  outcome r = Exit 1 ∧
  Forall (λ a, (check_of a ≤ 3)%nat) (actions (trace r)) ∧
  Forall (λ kd, ∀ j, kd = Begin j → (j ≤ 3)%nat) (kinds (trace r)).
Proof.
  assert (H : check_fails world_no_pdf env_ok 3)
    by (right; by eexists).
  split; [exact H|].
  exact (fail_fast_no_later_check world_no_pdf env_ok 3
           checks_pass_world_no_pdf H).
Defined.

(** C3, amended. When check [k] fails and every earlier check passed, the
    output has exactly [k] begin lines, [k - 1] success lines and one
    failure line, and the process exits with status 1.  The failure line is
    the report of check [k]: the keys-not-found line, or the prefix of
    check [k] followed by the text of the exception.  For checks 1 to 6
    it is the last line printed; for check 7 (Gemini) it is followed by
    exactly one more line, the tip about the Google API key. *)
Theorem failed_run_output
  (w : World) (env : gmap string string) (k : nat) :
  (∀ j, (1 ≤ j < k)%nat → check_passes w env j) →
  check_fails w env k →
  let r := run_script (test_setup w) env in
  let t := trace r in
  begin_lines t = k ∧ success_lines t = (k - 1)%nat ∧
  failure_lines t = 1%nat ∧
  exit_status (outcome r) = 1 ∧
  (∃ pre l, lines t = (pre ++ l :: after_failure k)%list ∧
            classify l = Failure ∧ failure_report w env k l) ∧
  (k ≠ 7%nat → failure_report_last t = true) ∧
  (k = 7%nat →
   ∃ pre l, lines t =
            (pre ++ [l; "   💡 Tip: Check if your Google API key is valid and has Gemini access enabled"])%list
            ∧ classify l = Failure).
Proof.
  intros Hpass Hfail. cbv zeta.
  pose proof (failing_check_world w env k Hpass Hfail) as Hf.
  destruct (test_setup_summary w env) as [_ Hs]. rewrite Hf in Hs.
  destruct Hs as (Hb & Ho & _ & Hkinds).
  destruct (failed_block_report w env k Hf) as (_ & pre & l & Hl & Hrep).
  pose proof (failure_report_kind w env k l Hb Hrep) as Hkind.
  rewrite begin_lines_kinds, success_lines_kinds, failure_lines_kinds.
  rewrite Ho, Hkinds.
  split; [|split; [|split; [|split; [done|split; [|split]]]]].
  1-3: by destruct (failing_check_cases k Hb)
         as [->|[->|[->|[->|[->|[->| ->]]]]]].
  - by exists pre, l.
  - intros Hne. unfold failure_report_last.
    replace (after_failure k) with (@nil string) in Hl.
    + rewrite Hl, last_snoc. unfold is_failure. by rewrite Hkind.
    + by destruct (failing_check_cases k Hb)
        as [->|[->|[->|[->|[->|[->| ->]]]]]].
  - intros ->. by exists pre, l.
Qed.

Lemma checks_pass_world_gemini_down (j : nat) :
  (1 ≤ j < 7)%nat → check_passes world_gemini_down env_ok j.
Proof.
  intros Hj.
  assert (j = 1 ∨ j = 2 ∨ j = 3 ∨ j = 4 ∨ j = 5 ∨ j = 6)%nat
    as [->|[->|[->|[->|[->| ->]]]]] by lia.
  - unfold check_passes, imports_succeed. by apply Forall_forall.
  - split; [by eexists|]. split; vm_compute; reflexivity.
  - by eexists.
  - by do 2 eexists.
  - by eexists.
  - by do 2 eexists.
Defined.

(** A run in which the Gemini call raises: check 7 is the one that fails. *)
Lemma failed_run_output_witness :
  check_fails world_gemini_down env_ok 7 ∧
  let r := run_script (test_setup world_gemini_down) env_ok in
  let t := trace r in
  begin_lines t = 7%nat ∧ success_lines t = (7 - 1)%nat ∧
  failure_lines t = 1%nat ∧
  exit_status (outcome r) = 1 ∧
  (∃ pre l, lines t = (pre ++ l :: after_failure 7)%list ∧
            classify l = Failure ∧
            failure_report world_gemini_down env_ok 7 l) ∧
  (7%nat ≠ 7%nat → failure_report_last t = true) ∧
  (7%nat = 7%nat →
   ∃ pre l, lines t =
            (pre ++ [l; "   💡 Tip: Check if your Google API key is valid and has Gemini access enabled"])%list
            ∧ classify l = Failure).
Proof.
  assert (H : check_fails world_gemini_down env_ok 7).
  { right. eexists. right. eexists. split; reflexivity. }
  split; [exact H|].
  exact (failed_run_output world_gemini_down env_ok 7
           checks_pass_world_gemini_down H).
Defined.
(** ** A missing key *)

(** C5, as worded, fails by the order of the checks: with a key absent
    and an import that raises, [test_setup.py] fails in its first block,
    not at the environment-variable check. *)
Lemma missing_key_fails_at_imports :
  ¬ missing_key_as_worded world_no_helper env_no_google.
Proof.
  intros H. destruct H as (Hf & _); [right; vm_compute; reflexivity|].
  vm_compute in Hf. discriminate Hf.
Qed.

(** C5, amended. In every run of [test_setup.py] in which a key is absent
    from the environment after [load_dotenv], the process exits with status
    1 in check 1 or check 2 and makes no call into a collaborator (Pinecone
    client, document loader and splitter, embedding model, language model);
    when the run reaches the environment-variable check (the imports and
    [load_dotenv] succeed) it fails there and the keys-not-found line is
    the last line.  In every run of [check_pinecone.py] in which the
    Pinecone key is absent, no call into a collaborator is made; when the
    run reaches the key test, it prints the key-not-found line and exits
    with status 1. *)
Theorem missing_key_stops_before_collaborators
  (w : World) (env : gmap string string) :
  dotenv_environ w env !! "PINECONE_API_KEY" = None ∨
  dotenv_environ w env !! "GOOGLE_API_KEY" = None →
  (let r := run_script (test_setup w) env in
   exit_status (outcome r) = 1 ∧
   (failing_check w env = Some 1%nat ∨ failing_check w env = Some 2%nat) ∧
   Forall (λ a, is_collaborator a = false) (actions (trace r)) ∧
   (imports_succeed w test_setup_modules →
    (∃ env', load_dotenv w env = Returns env') →
    failing_check w env = Some 2%nat ∧
    last (lines (trace r)) = Some "   ❌ API keys not found in .env file")) ∧
  (dotenv_environ w env !! "PINECONE_API_KEY" = None →
   let r := run_script (check_pinecone w) env in
   Forall (λ a, is_collaborator a = false) (actions (trace r)) ∧
   (imports_succeed w check_pinecone_modules →
    (∃ env', load_dotenv w env = Returns env') →
    exit_status (outcome r) = 1 ∧
    last (lines (trace r))
    = Some "❌ PINECONE_API_KEY not found in .env file")).
Proof.
  intros Hkey. split.
  - cbv zeta.
    assert (Hfalsy : truthy (dotenv_environ w env !! "PINECONE_API_KEY")
                     && truthy (dotenv_environ w env !! "GOOGLE_API_KEY")
                     = false).
    { destruct Hkey as [-> | ->]; simpl; [done|]. apply andb_false_r. }
    assert (Hnot : ¬ check_passes w env 2).
    { intros (_ & Htp & Htg). by rewrite Htp, Htg in Hfalsy. }
    assert (Hf : ∃ k, failing_check w env = Some k ∧ (1 ≤ k ≤ 2)%nat).
    { destruct (failing_check w env) as [k|] eqn:Hf.
      - exists k. split; [done|].
        destruct (failing_check_cause w env k Hf) as (Hk & Hpass & _).
        destruct (decide (k ≤ 2)%nat); [lia|].
        destruct Hnot. apply Hpass. lia.
      - destruct Hnot. apply passing_checks; [done|lia]. }
    destruct Hf as (k & Hf & Hk).
    destruct (test_setup_summary w env) as [Ha Hs]. rewrite Hf in Hs.
    destruct Hs as (_ & Ho & _). rewrite Ho.
    split; [done|]. split; [|split].
    + assert (k = 1 ∨ k = 2)%nat as [-> | ->] by lia; auto.
    + rewrite Ha.
      destruct (run_checks_actions (checks w) 1 (init_store env)
                  (λ i c s', checks_summary w i c s')) as [Hall _].
      rewrite Forall_map in Hall.
      eapply Forall_impl; [exact Hall|]. intros a [_ Hle].
      apply not_collaborator. specialize (Hle k Hf). lia.
    + intros Hi (env' & Hd).
      assert (Hda : dotenv_environ w env = env')
        by (unfold dotenv_environ; by rewrite Hd).
      rewrite Hda in Hfalsy.
      destruct (test_setup_falsy_keys w env env' Hi Hd Hfalsy)
        as (Hc & _ & Hl & _).
      by rewrite Hl.
  - intros Hnone. cbv zeta. split.
    + revert Hnone. unfold run_script, check_pinecone, init_store.
      run_block_eq; normalise_cases; intros Hnone.
      all: try (exfalso; revert Hnone; after_dotenv; intros Hnone;
                match goal with
                | H : truthy _ = true |- _ => rewrite Hnone in H
                end; discriminate).
      all: by repeat constructor.
    + intros Hi (env' & Hd).
      assert (Hda : dotenv_environ w env = env')
        by (unfold dotenv_environ; by rewrite Hd).
      rewrite Hda in Hnone.
      destruct (check_pinecone_falsy_key w env env' Hi Hd) as (Ho & Hl & _).
      { by rewrite Hnone. }
      by rewrite Ho, Hl.
Qed.

(** A run with [GOOGLE_API_KEY] absent and every call succeeding. *)
Lemma missing_key_stops_before_collaborators_witness :
  (dotenv_environ world_ok env_no_google !! "PINECONE_API_KEY" = None ∨
   dotenv_environ world_ok env_no_google !! "GOOGLE_API_KEY" = None) ∧
  (let r := run_script (test_setup world_ok) env_no_google in
   exit_status (outcome r) = 1 ∧
   (failing_check world_ok env_no_google = Some 1%nat
    ∨ failing_check world_ok env_no_google = Some 2%nat) ∧
   Forall (λ a, is_collaborator a = false) (actions (trace r)) ∧
   (imports_succeed world_ok test_setup_modules →
    (∃ env', load_dotenv world_ok env_no_google = Returns env') →
    failing_check world_ok env_no_google = Some 2%nat ∧
    last (lines (trace r)) = Some "   ❌ API keys not found in .env file")) ∧
  (dotenv_environ world_ok env_no_google !! "PINECONE_API_KEY" = None →
   let r := run_script (check_pinecone world_ok) env_no_google in
   Forall (λ a, is_collaborator a = false) (actions (trace r)) ∧
   (imports_succeed world_ok check_pinecone_modules →
    (∃ env', load_dotenv world_ok env_no_google = Returns env') →
    exit_status (outcome r) = 1 ∧
    last (lines (trace r))
    = Some "❌ PINECONE_API_KEY not found in .env file")).
Proof.
  assert (Hk : dotenv_environ world_ok env_no_google !! "PINECONE_API_KEY"
               = None
               ∨ dotenv_environ world_ok env_no_google !! "GOOGLE_API_KEY"
                 = None).
  { right. vm_compute. reflexivity. }
  split; [exact Hk|].
  exact (missing_key_stops_before_collaborators world_ok env_no_google Hk).
Defined.

(** ** The lines of one block, revisited *)

(** C7, amended. Every check of [test_setup.py] that runs prints exactly
    one line, its begin line with its number, before its first call, and
    prints nothing between its calls.  After its last call, checks 1 to 6
    print exactly one line, the success line or the failure line; check 7
    (Gemini) prints two: the success line followed by the preview of the
    reply of the model (its first 50 characters and three dots), or the
    failure line followed by the tip about the Google API key. *)
Theorem block_lines
  (w : World) (env : gmap string string) (i : nat) (t : list Event) :
  block_traces w env !! i = Some t →
  ∃ b acts v extra,
    t = (Print b :: map Act acts ++ Print v :: map Print extra)%list ∧
    classify b = Begin (1 + i) ∧
    ((classify v = Success ∧ after_success w (1 + i) extra) ∨
     (classify v = Failure ∧ extra = after_failure (1 + i))).
Proof.
  intros Hi.
  pose proof (traces_of_lookup (block_output w) (checks w) 1 (init_store env)
                (λ j c s', checks_output w j c s') i t Hi)
    as (b & acts & v & extra & Hs & Hb & Hv).
  exists b, acts, v, extra. split; [|done].
  by apply split_check_sound in Hs.
Qed.

(** The Gemini check of a run in which every package call succeeds. *)
Lemma block_lines_witness :
  ∃ t, block_traces world_ok env_ok !! 6%nat = Some t ∧
  ∃ b acts v extra,
    t = (Print b :: map Act acts ++ Print v :: map Print extra)%list ∧
    classify b = Begin (1 + 6) ∧
    ((classify v = Success ∧ after_success world_ok (1 + 6) extra) ∨
     (classify v = Failure ∧ extra = after_failure (1 + 6))).
Proof.
  eexists. split; [vm_compute; reflexivity|].
  apply (block_lines world_ok env_ok 6). vm_compute. reflexivity.
Defined.

(** ** The process environment and the module globals *)

(** C8, amended. One check of [test_setup.py] does write process-global
    state: check 7 assigns [os.environ["GOOGLE_API_KEY"]].  That is the only
    write to the environment the script makes: it happens at most once in a
    run, only when checks 1 to 6 have passed, and the value assigned is the
    one the environment held under that name after [load_dotenv], which is
    what check 2 read.  The calls the script makes are an initial part of
    the sixteen written in it, in source order, none of them a write to a
    file.  The values it threads from one check to a later one through
    module variables are the two keys read in check 2, passed to the
    Pinecone client in check 6 and assigned in check 7, and the documents
    loaded in check 3, passed to [text_split] in check 4; each of the three
    variables is unbound or holds what [os.environ.get], respectively
    [load_pdf_file], returned. *)
Theorem environ_frame (w : World) (env : gmap string string) :
  let r := run_script (test_setup w) env in
  actions (trace r) `prefix_of` test_setup_calls w env ∧
  (PINECONE_API_KEY (store r) = None ∨
   PINECONE_API_KEY (store r)
   = Some (dotenv_environ w env !! "PINECONE_API_KEY")) ∧
  (GOOGLE_API_KEY (store r) = None ∨
   GOOGLE_API_KEY (store r)
   = Some (dotenv_environ w env !! "GOOGLE_API_KEY")) ∧
  (extracted_data (store r) = None ∨
   ∃ d, extracted_data (store r) = Some d ∧
        load_pdf_file w "Data/" = Returns d) ∧
  (env_writes (trace r) = [] ∨
   ∃ v, env_writes (trace r) = [("GOOGLE_API_KEY", v)] ∧
        dotenv_environ w env !! "GOOGLE_API_KEY" = Some v ∧
        (failing_check w env = None ∨ failing_check w env = Some 7%nat)).
Proof.
  cbv zeta.
  assert (Hcalls : actions (trace (run_script (test_setup w) env))
                   `prefix_of` test_setup_calls w env).
  { destruct (test_setup_summary w env) as [Ha _]. cbv zeta in Ha.
    rewrite Ha. unfold test_setup_calls.
    apply (run_checks_calls (block_calls w env) (checks w) 1
             (init_store env)).
    intros i r Hi.
    by destruct (test_setup_blocks w env i r Hi)
      as (_ & _ & _ & _ & ? & ? & _). }
  split; [exact Hcalls|]. clear Hcalls. unfold run_script.
  destruct (run_checks_frame w env (checks w) 1 (init_store env)
              (checks_frame w env) eq_refl) as (_ & Hw & _).
  pose proof (run_checks_summary (checks w) 1 (init_store env)
                (λ i c s', checks_summary w i c s')) as Hsum.
  destruct (run_checks_actions (checks w) 1 (init_store env)
              (λ i c s', checks_summary w i c s')) as [Hact _].
  cbv zeta in Hsum. fold (failing_check w env) in Hsum, Hact.
  assert (Hglob : globals_kept w env
                    (store (run_checks (checks w) (init_store env)))).
  { destruct (runs_of_store (checks w) (init_store env))
      as [->|(i & r & Hi & ->)].
    - unfold globals_kept. simpl. by repeat split; left.
    - by destruct (test_setup_blocks w env i r Hi)
        as (_ & _ & _ & _ & _ & _ & ?). }
  rewrite test_setup_run. cbv zeta.
  set (rc := run_checks (checks w) (init_store env)) in *.
  assert (Hwr : env_writes (trace rc) = [] ∨
            ∃ v, env_writes (trace rc) = [("GOOGLE_API_KEY", v)] ∧
                 dotenv_environ w env !! "GOOGLE_API_KEY" = Some v ∧
                 (failing_check w env = None
                  ∨ failing_check w env = Some 7%nat)).
  { destruct Hw as [Hw|(v & Hw & Hv)]; [by left|right].
    exists v. split; [done|]. split; [done|].
    assert (Hel : ("GOOGLE_API_KEY", v) ∈ env_writes (trace rc))
      by (rewrite Hw; apply list_elem_of_here).
    unfold env_writes in Hel.
    apply list_elem_of_omap in Hel as (a & Ha & Hwa).
    rewrite Forall_map, Forall_forall in Hact.
    destruct (Hact a Ha) as [_ Hle].
    rewrite (env_write_check a _ Hwa) in Hle.
    destruct (failing_check w env) as [k|]; [|by left].
    right. f_equal. specialize (Hle k eq_refl).
    destruct Hsum as (Hb & _). simpl in Hb. lia. }
  destruct Hglob as (G1 & G2 & G3).
  destruct (outcome rc); cbn [outcome store trace];
    (split; [exact G1|]); (split; [exact G2|]); (split; [exact G3|]);
    rewrite env_writes_header, ?env_writes_app, ?env_writes_next_steps,
      ?app_nil_r;
    exact Hwr.
Qed.
(** ** Further properties of test_setup.py *)

Lemma str_take_len (n : nat) (s : string) :
  str_len (str_take n s) = Nat.min n (str_len s).
Proof.
  revert n. induction s as [|c s IH]; intros n; simpl.
  - by rewrite Nat.min_0_r.
  - destruct (is_continuation c) eqn:Hc; simpl.
    + by rewrite Hc, IH.
    + destruct n as [|n]; simpl; [done|]. by rewrite Hc, IH.
Qed.

Lemma str_take_prefix (n : nat) (s : string) :
  ∃ rest, s = str_take n s +:+ rest.
Proof.
  revert n. induction s as [|c s IH]; intros n; simpl.
  - by exists "".
  - destruct (is_continuation c).
    + destruct (IH n) as (rest & Hr). exists rest.
      change (String c s = String c (str_take n s +:+ rest)). by f_equal.
    + destruct n as [|n]; [by eexists|].
      destruct (IH n) as (rest & Hr). exists rest.
      change (String c s = String c (str_take n s +:+ rest)). by f_equal.
Qed.

(** The slice counts characters, not bytes: two-byte characters are
    kept whole. *)
Lemma str_take_accented : str_take 3 "héllo" = "hél" ∧ str_len "héllo" = 5%nat.
Proof. split; reflexivity. Qed.

(** X2. In a run of [test_setup.py] in which the prints succeed, and in
    which what a package call raises is an [Exception], the exit status
    tells whether every check passed.  It is 0 exactly when the package
    calls of all seven checks return and both keys are truthy; it is 1
    exactly when some check fails (one of its calls raises, or a key is
    missing or empty in check 2) after the checks before it passed.  The
    success banner is printed exactly when every check passes, and what a
    package call raises does not leave the script. *)
Theorem test_setup_exit_status (w : World) (env : gmap string string) :
  let r := run_script (test_setup w) env in
  (exit_status (outcome r) = 0
   ↔ ∀ j, (1 ≤ j ≤ 7)%nat → check_passes w env j) ∧
  (exit_status (outcome r) = 1
   ↔ ∃ k, (∀ j, (1 ≤ j < k)%nat → check_passes w env j) ∧
          check_fails w env k) ∧
  ("🎉 ALL TESTS PASSED! Your medical chatbot is ready!" ∈ lines (trace r)
   ↔ ∀ j, (1 ≤ j ≤ 7)%nat → check_passes w env j) ∧
  (∀ e, outcome r ≠ Exc e).
Proof.
  cbv zeta. destruct (test_setup_summary w env) as [_ Hs].
  destruct (failing_check w env) as [k|] eqn:Hf.
  - destruct Hs as (_ & Ho & Ht & _). rewrite Ho. cbn [exit_status].
    destruct (failing_check_cause w env k Hf) as (Hk & Hpass & Hfail).
    assert (Hnot : ¬ ∀ j, (1 ≤ j ≤ 7)%nat → check_passes w env j).
    { intros Hall. by destruct (passes_not_fails w env k); [apply Hall|]. }
    split; [by split|]. split; [by split; [exists k|]|]. split; [|done].
    split; [|done]. rewrite Ht. cbn [lines]. intros Hb.
    apply elem_of_cons in Hb as [Hb|Hb]; [discriminate Hb|].
    apply elem_of_cons in Hb as [Hb|Hb]; [discriminate Hb|].
    apply elem_of_lines, runs_of_event in Hb as (i & r & Hi & Hb).
    apply elem_of_lines in Hb.
    by destruct (test_setup_blocks w env i r Hi) as (_ & _ & _ & Hnot' & _).
  - destruct Hs as (Ho & Ht & _). rewrite Ho. cbn [exit_status].
    assert (Hall : ∀ j, (1 ≤ j ≤ 7)%nat → check_passes w env j)
      by (intros j Hj; by apply passing_checks).
    split; [by split|]. split; [|split; [|done]].
    + split; [done|]. intros (k & Hpass & Hfail).
      pose proof (failing_check_world w env k Hpass Hfail). congruence.
    + split; [done|]. intros _. rewrite Ht. cbn [lines].
      do 2 apply list_elem_of_further. rewrite lines_app. apply elem_of_app.
      right. cbn. in_list.
Qed.

(** X3. When block [k] of [test_setup.py] is the first to fail, the output
    has a failure line that says why: either a key is missing or empty
    after [load_dotenv] (block 2, the keys-not-found line), or a package
    call of block [k] raised and the line is the prefix of block [k]
    followed by the text of that exception, as raised.  No failure comes
    from the script itself, such as the use of an unbound name. *)
Theorem failure_line_reports_cause
  (w : World) (env : gmap string string) (k : nat) :
  failing_check w env = Some k →
  ∃ l, l ∈ lines (trace (run_script (test_setup w) env)) ∧
       classify l = Failure ∧
       failure_report w env k l.
Proof.
  intros Hf.
  destruct (failed_block_report w env k Hf) as (Hk & pre & l & Hl & Hrep).
  exists l. split; [|split; [by eapply failure_report_kind|done]].
  rewrite Hl. apply elem_of_app. right. apply list_elem_of_here.
Qed.

(** A run in which the Gemini call raises. *)
Lemma failure_line_reports_cause_witness :
  failing_check world_gemini_down env_ok = Some 7%nat ∧
  ∃ l, l ∈ lines (trace (run_script (test_setup world_gemini_down) env_ok)) ∧
       classify l = Failure ∧
       failure_report world_gemini_down env_ok 7 l.
Proof.
  assert (H : failing_check world_gemini_down env_ok = Some 7%nat)
    by (vm_compute; reflexivity).
  split; [exact H|].
  exact (failure_line_reports_cause world_gemini_down env_ok 7 H).
Defined.

(** X4. In [test_setup.py], every block that passed stands for package
    calls that returned, and its success line shows what they returned:
    the number of documents [load_pdf_file] returned, the number of chunks
    [text_split] returned on exactly those documents, the names
    [list_indexes] returned on the client constructed with the
    environment's key, and the first 50 characters of the reply of the
    model. *)
Theorem success_lines_report_results
  (w : World) (env : gmap string string) (j : nat) :
  (1 ≤ j ≤ 7)%nat →
  (∀ k, failing_check w env = Some k → (j < k)%nat) →
  success_report w env j (lines (trace (run_script (test_setup w) env))).
Proof. apply passed_block_report. Qed.

(** A run in which every call succeeds, read at block 4. *)
Lemma success_lines_report_results_witness :
  success_report world_ok env_ok 4
    (lines (trace (run_script (test_setup world_ok) env_ok))).
Proof.
  apply (success_lines_report_results world_ok env_ok 4); [lia|].
  intros k H. vm_compute in H. discriminate H.
Defined.

(** X5. The calls of a run of [test_setup.py] are an initial part of the
    calls written in its seven blocks, in source order, each made at most
    once; the client constructor gets the key the environment holds after
    [load_dotenv], and the only assignment to the environment stores under
    [GOOGLE_API_KEY] the value it already holds. *)
Theorem test_setup_calls_in_order (w : World) (env : gmap string string) :
  actions (trace (run_script (test_setup w) env))
  `prefix_of` test_setup_calls w env.
Proof.
  destruct (test_setup_summary w env) as [Ha _]. cbv zeta in Ha.
  rewrite Ha. unfold test_setup_calls.
  apply (run_checks_calls (block_calls w env) (checks w) 1 (init_store env)).
  intros i r Hi.
  by destruct (test_setup_blocks w env i r Hi)
    as (_ & _ & _ & _ & ? & ? & _).
Qed.

(** X6. Neither script constructs the Pinecone client with a missing or
    empty key: whenever the constructor is called, its argument is the
    value the environment holds under [PINECONE_API_KEY] after
    [load_dotenv], and that value is a non-empty string. *)
Theorem client_key_is_environment_key
  (w : World) (env : gmap string string) (key : option string) :
  PineconeInit key ∈ actions (trace (run_script (test_setup w) env)) ∨
  PineconeInit key ∈ actions (trace (run_script (check_pinecone w) env)) →
  key = dotenv_environ w env !! "PINECONE_API_KEY" ∧ truthy key = true.
Proof.
  intros [H|H].
  - destruct (test_setup_summary w env) as [Ha _]. cbv zeta in Ha.
    rewrite Ha in H.
    apply elem_of_actions, runs_of_event in H as (i & r & Hi & H).
    apply elem_of_actions in H.
    destruct (test_setup_blocks w env i r Hi) as (_ & _ & Hkey & _).
    by apply Hkey.
  - revert H. unfold run_script, check_pinecone, init_store.
    run_block_eq; normalise_cases; intros H; not_in_list H.
    all: injection H as ->; after_dotenv; by split.
Qed.

(** A run of [check_pinecone.py] in which every call succeeds. *)
Lemma client_key_is_environment_key_witness :
  Some "pc-key" = dotenv_environ world_ok env_ok !! "PINECONE_API_KEY" ∧
  truthy (Some "pc-key") = true.
Proof.
  apply (client_key_is_environment_key world_ok env_ok (Some "pc-key")).
  right. apply list_elem_of_In. vm_compute. tauto.
Defined.

(** X7. A run of [test_setup.py] in which every block passes makes every
    call written in the script, once each and in source order: sixteen
    calls, from the first import to the model's [invoke]. *)
Theorem passing_run_makes_every_call
  (w : World) (env : gmap string string) :
  failing_check w env = None →
  actions (trace (run_script (test_setup w) env)) = test_setup_calls w env ∧
  length (actions (trace (run_script (test_setup w) env))) = 16%nat.
Proof.
  intros Hnone.
  destruct (test_setup_summary w env) as [Ha _]. cbv zeta in Ha.
  assert (Heq : actions (trace (run_script (test_setup w) env))
                = test_setup_calls w env).
  { rewrite Ha. unfold test_setup_calls.
    apply (run_checks_calls_all (block_calls w env) (checks w) 1
             (init_store env)); [|done].
    intros i r Hi.
    by destruct (test_setup_blocks w env i r Hi)
      as (_ & _ & _ & _ & ? & _). }
  split; [done|]. by rewrite Heq.
Qed.

(** A run in which every call succeeds. *)
Lemma passing_run_makes_every_call_witness :
  actions (trace (run_script (test_setup world_ok) env_ok))
  = test_setup_calls world_ok env_ok ∧
  length (actions (trace (run_script (test_setup world_ok) env_ok)))
  = 16%nat.
Proof.
  apply (passing_run_makes_every_call world_ok env_ok).
  vm_compute. reflexivity.
Defined.
(** X8. The two scripts agree.  If, in a world and an environment, the
    Pinecone block of [test_setup.py] passes, then [check_pinecone.py] run
    in the same world and environment gets the list of indexes: it prints
    no error line, only the names and whether [medicalbot] is among them,
    and ends with exit status 0. *)
Theorem test_setup_pass_implies_index_listed
  (w : World) (env : gmap string string) :
  (∀ k, failing_check w env = Some k → (6 < k)%nat) →
  let r := run_script (check_pinecone w) env in
  ∃ idxs,
    lists_indexes w env idxs ∧
    exit_status (outcome r) = 0 ∧
    failure_lines (trace r) = 0%nat ∧
    "   ✅ Pinecone connected! Available indexes: "
    +:+ str_list w (map name idxs)
    ∈ lines (trace (run_script (test_setup w) env)) ∧
    lines (trace r) =
      "🔍 Checking Pinecone Index..."
      :: ("📋 Available indexes: " +:+ str_list w (map name idxs))
      :: (if bool_decide ("medicalbot" ∈ map name idxs)
          then [ "✅ 'medicalbot' index exists!";
                 "🎉 Your Pinecone setup is ready!" ]
          else [ "⚠️  'medicalbot' index not found.";
                 "📝 Run: python store_index.py to create it" ]).
Proof.
  intros Hk. cbv zeta.
  assert (Hrep : ∀ j, (1 ≤ j ≤ 6)%nat →
            success_report w env j
              (lines (trace (run_script (test_setup w) env)))).
  { intros j Hj. apply passed_block_report; [lia|].
    intros k H. specialize (Hk k H). lia. }
  pose proof (Hrep 1%nat ltac:(lia)) as H1.
  pose proof (Hrep 2%nat ltac:(lia)) as ((env' & Hd) & Htp & _).
  pose proof (Hrep 6%nat ltac:(lia)) as (pc & idxs & Hpc & Hl & Hline).
  simpl in H1. unfold imports_succeed, test_setup_modules in H1.
  rewrite !Forall_cons in H1.
  destruct H1 as (_ & Hpine & _ & Hdot & Hos & _).
  assert (Hda : dotenv_environ w env = env')
    by (unfold dotenv_environ; by rewrite Hd).
  rewrite Hda in Htp, Hpc.
  assert (Hli : lists_indexes w env idxs).
  { repeat (split; [done|]). by exists env', pc. }
  destruct (check_pinecone_listed w env idxs Hli) as [Ho Hlines].
  exists idxs. split; [done|]. unfold failure_lines.
  rewrite Ho, Hlines. split; [done|].
  split; [by destruct (bool_decide _)|]. split; [done|done].
Qed.

(** A run in which every call succeeds. *)
Lemma test_setup_pass_implies_index_listed_witness :
  let r := run_script (check_pinecone world_ok) env_ok in
  ∃ idxs,
    lists_indexes world_ok env_ok idxs ∧
    exit_status (outcome r) = 0 ∧
    failure_lines (trace r) = 0%nat ∧
    "   ✅ Pinecone connected! Available indexes: "
    +:+ str_list world_ok (map name idxs)
    ∈ lines (trace (run_script (test_setup world_ok) env_ok)) ∧
    lines (trace r) =
      "🔍 Checking Pinecone Index..."
      :: ("📋 Available indexes: " +:+ str_list world_ok (map name idxs))
      :: (if bool_decide ("medicalbot" ∈ map name idxs)
          then [ "✅ 'medicalbot' index exists!";
                 "🎉 Your Pinecone setup is ready!" ]
          else [ "⚠️  'medicalbot' index not found.";
                 "📝 Run: python store_index.py to create it" ]).
Proof.
  apply (test_setup_pass_implies_index_listed world_ok env_ok).
  intros k H. vm_compute in H. discriminate H.
Defined.
